(** * Shapelet design-matrix builders (src/src/MatrixBuilder.cc)

    A shallow embedding of the matrix-construction engine of the shapelet
    package: the coordinate normaliser (EllipseHelper), the two basis
    evaluators (GaussianHelper, ShapeletHelper), the six MatrixBuilder
    variants and the makeMatrixBuilder overloads.

    Conventions of the embedding.
    - The template parameter T (float or double) and the doubles of the
      collaborators are one scalar type, given by the interface [Scalar];
      every arithmetic expression keeps the association of the C++ source,
      so the theorems stated over an arbitrary [Scalar] do not depend on any
      algebraic law.  Laws are used only where a property is an algebraic
      identity, and then over the instance on the real numbers; the
      instance on binary64 shows where rounding breaks such an identity.
    - A one-dimensional array is a list of scalars.  A two-dimensional array
      is the list of its columns, each column holding one value per sample.
    - Exceptions are the [Err] results of the type [result].
    - In the translated file some calls and the functions they name differ
      in their parameter lists.  Every function is translated from its
      definition; how its calls are read is said where it is defined. *)

From Stdlib Require Import List Arith ZArith QArith Lia Bool.
From Stdlib Require Import Reals Lra.
From Corelib Require PrimFloat.
Import ListNotations.

Set Implicit Arguments.
Local Open Scope nat_scope.

(** ** Scalars *)

(** The operations of <cmath> and of the package's constants header that the
    file uses.  [BASIS_NORMALIZATION] and [FLUX_FACTOR] are constants declared
    outside the translated file and are taken as given. *)
Class Scalar (T : Type) : Type := {
  lit : Q -> T;                 (* a floating literal such as -0.5 or 1.0 *)
  ofInt : Z -> T;               (* conversion of an int *)
  sadd : T -> T -> T;
  ssub : T -> T -> T;
  smul : T -> T -> T;
  sdiv : T -> T -> T;
  sexp : T -> T;
  ssqrt : T -> T;
  M_PI : T;
  BASIS_NORMALIZATION : T;
  FLUX_FACTOR : T
}.

Declare Scope scalar_scope.
Delimit Scope scalar_scope with S.
Infix "+" := sadd : scalar_scope.
Infix "-" := ssub : scalar_scope.
Infix "*" := smul : scalar_scope.
Infix "/" := sdiv : scalar_scope.

Section Arrays.
Context {T : Type} `{Scalar T}.

Definition Vec := list T.
(** A matrix as the list of its columns. *)
Definition Mat := list Vec.

(** Coefficient-wise binary operation of two Eigen arrays. *)
Fixpoint zipWith (f : T -> T -> T) (a b : Vec) : Vec :=
  match a, b with
  | x :: a', y :: b' => f x y :: zipWith f a' b'
  | _, _ => []
  end.

Definition vscale (c : T) (a : Vec) : Vec := map (fun v => (c * v)%S) a.
Definition vscale_r (a : Vec) (c : T) : Vec := map (fun v => (v * c)%S) a.
Definition vdiv_r (a : Vec) (c : T) : Vec := map (fun v => (v / c)%S) a.
Definition vadd_scalar (a : Vec) (c : T) : Vec := map (fun v => (v + c)%S) a.
Definition vconst (c : T) (a : Vec) : Vec := map (fun _ => c) a.
Definition vzero (n : nat) : Vec := repeat (lit 0) n.

(** [xyt.rowwise().squaredNorm()] for the two-column array (xt, yt). *)
Definition squaredNorm (xt yt : Vec) : Vec :=
  zipWith (fun x y => (x * x + y * y)%S) xt yt.
End Arrays.

(** ** The geometry collaborator *)

(** [afw::geom::AffineTransform]: the six components read by
    [EllipseHelper::readEllipse]. *)
Record AffineTransform (T : Type) : Type := mkAffine {
  XX : T; XY : T; X : T;
  YX : T; YY : T; Y : T
}.

(** The ellipse library is outside the translated file; the builders use
    these four entry points of it. *)
Class Geometry (T : Type) : Type := {
  Ellipse : Type;
  getGridTransform : Ellipse -> AffineTransform T;
  computeDeterminant : AffineTransform T -> T;   (* getLinear().computeDeterminant() *)
  convolve : Ellipse -> Ellipse -> Ellipse;
  scaleCore : Ellipse -> T -> Ellipse            (* getCore().scale(r) on a copy *)
}.

(** ** EllipseHelper *)

Section Helpers.
Context {T : Type} `{Scalar T} `{Geometry T}.

(** The two transformed coordinate arrays and the determinant factor.  The
    evaluators name the arrays [xyt.col(0)] and [xyt.col(1)]. *)
Record EllipseHelper : Type := mkEllipseHelper {
  detFactor : T;
  xt : Vec (T:=T);
  yt : Vec (T:=T)
}.

(** Constructor: detFactor(1.0) and two views of [dataSize] entries, taken
    from the workspace pointer; the builders write the call with the data
    size alone. *)
Definition EllipseHelper_new (dataSize : nat) : EllipseHelper :=
  mkEllipseHelper (lit 1) (vzero dataSize) (vzero dataSize).

(** The builders pass [_xy], whose columns are x and y. *)
Definition readEllipse (x y : Vec) (ellipse : Ellipse) : EllipseHelper :=
  let transform := getGridTransform ellipse in
  mkEllipseHelper
    (computeDeterminant transform)
    (vadd_scalar
       (zipWith sadd (vscale (XX transform) x) (vscale (XY transform) y))
       (X transform))
    (vadd_scalar
       (zipWith sadd (vscale (YX transform) x) (vscale (YY transform) y))
       (Y transform)).

Definition scale (eh : EllipseHelper) (factor : T) : EllipseHelper :=
  mkEllipseHelper (detFactor eh) (vdiv_r (xt eh) factor) (vdiv_r (yt eh) factor).

(** ** GaussianHelper *)

(** [static T const NORM = 1.0 / std::sqrt(M_PI)] *)
Definition NORM : T := (lit 1 / ssqrt M_PI)%S.

(** [(-0.5*xyt.rowwise().squaredNorm()).array().exp()] *)
Definition gaussianEnvelope (eh : EllipseHelper) : Vec :=
  map sexp (vscale (lit (-1 # 2)) (squaredNorm (xt eh) (yt eh))).

(** [output += envelope * detFactor * NORM] *)
Definition GaussianHelper_apply (eh : EllipseHelper) (output : Vec) : Vec :=
  zipWith sadd output
    (vscale_r (vscale_r (gaussianEnvelope eh) (detFactor eh)) NORM).
End Helpers.
Arguments EllipseHelper T : clear implicits.

(** ** Helpers of the constants header *)

(** Modelled from the spec: [computeSize], the number of basis functions of a
    shapelet expansion of order n, "(n+1)(n+2)/2"; it is declared in the
    constants header, which is not part of the translated file. *)
Definition computeSize (order : nat) : nat := (order + 1) * (order + 2) / 2.

(** Modelled from the spec: [PackedIndex], the enumeration of the pairs
    (degree in x, degree in y) "ordered by increasing total order, then by a
    fixed tie-break within an order", whose position is the column index; the
    tie-break follows the spec's example, order 1 being (1,0) then (0,1).
    The class is declared in the constants header. *)
Record PackedIndex : Type := mkPackedIndex {
  getOrder : nat;
  getIndex : nat;
  getX : nat;
  getY : nat
}.

Definition PackedIndex_first : PackedIndex := mkPackedIndex 0 0 0 0.

(** [operator++] *)
Definition PackedIndex_next (i : PackedIndex) : PackedIndex :=
  match getX i with
  | 0 => mkPackedIndex (S (getOrder i)) (S (getIndex i)) (S (getOrder i)) 0
  | S x' => mkPackedIndex (getOrder i) (S (getIndex i)) x' (S (getY i))
  end.

(** ** ShapeletHelper *)

Section Shapelet.
Context {T : Type} `{Scalar T} `{Geometry T}.

(** Modelled from the spec: [intSqrt] and [rationalSqrt] of the constants
    header, the "sqrt(2)", "sqrt(2/j)" and "sqrt((j-1)/j)" of the
    recurrence. *)
Definition intSqrt (n : nat) : T := ssqrt (ofInt (Z.of_nat n)).
Definition rationalSqrt (n d : nat) : T :=
  ssqrt (ofInt (Z.of_nat n) / ofInt (Z.of_nat d))%S.

(** Column access.  Eigen's [col(j)] is unchecked: past the last column the
    C++ reads or writes outside the array.  Here [col j] is then the empty
    array and an assignment leaves the matrix as it is, which is not what
    the code does; what is stated about the code is stated where the
    indices stay inside, and the places where they leave are the subject of
    the extent lemmas. *)
Definition col (j : nat) (m : Mat (T:=T)) : Vec := nth j m [].

Fixpoint setCol (j : nat) (v : Vec (T:=T)) (m : Mat (T:=T)) : Mat :=
  match m, j with
  | [], _ => []
  | _ :: m', 0 => v :: m'
  | c :: m', S j' => c :: setCol j' v m'
  end.

(** [m.col(j) += v] *)
Definition accCol (j : nat) (v : Vec (T:=T)) (m : Mat (T:=T)) : Mat :=
  if j <? length m then setCol j (zipWith sadd (col j m) v) m else m.

(** The two Hermite tables are Eigen maps, kept as the list of their
    columns: [col j] is column j and [cols()] the number of columns.
    [_fillHermite1d] and [apply] use column j for the values of degree j:
    they combine [col(j)] coefficient-wise with the coordinate array and
    with [_expWorkspace], which have one entry per sample.  The initialiser
    list writes the order as [_order] and [maxOrder], the accessor as
    [_maxOrder]: one field here. *)
Record ShapeletHelper : Type := mkShapeletHelper {
  _order : nat;
  _expWorkspace : Vec (T:=T);
  _xWorkspace : Mat (T:=T);
  _yWorkspace : Mat (T:=T)
}.

(** Constructor: [_order(order)], one view of [dataSize] entries, and for
    each table [makeView(workspace, maxOrder + 1, dataSize)]: a map of
    [maxOrder + 1] rows and [dataSize] columns, that is [dataSize] columns
    of [maxOrder + 1] entries.  The columns have one entry per sample, as
    the evaluator uses them, only when [dataSize = maxOrder + 1]. *)
Definition ShapeletHelper_new (dataSize order : nat) : ShapeletHelper :=
  mkShapeletHelper order (vzero dataSize)
    (repeat (vzero (order + 1)) dataSize)
    (repeat (vzero (order + 1)) dataSize).

(** The body of the [for (int j = 2; j <= _order; ++j)] loop. *)
Definition hermiteStep (coord : Vec (T:=T)) (j : nat) (workspace : Mat) : Mat :=
  setCol j
    (zipWith ssub
       (zipWith smul (vscale (rationalSqrt 2 j) coord) (col (j - 1) workspace))
       (vscale (rationalSqrt (j - 1) j) (col (j - 2) workspace)))
    workspace.

(** [count] iterations of the loop from index [j] on. *)
Fixpoint hermiteLoop (coord : Vec (T:=T)) (count j : nat) (workspace : Mat) : Mat :=
  match count with
  | 0 => workspace
  | S count' => hermiteLoop coord count' (S j) (hermiteStep coord j workspace)
  end.

Definition _fillHermite1d (order : nat) (workspace : Mat) (coord : Vec (T:=T)) : Mat :=
  let w0 :=
    if 0 <? length workspace
    then setCol 0 (vconst BASIS_NORMALIZATION (col 0 workspace)) workspace
    else workspace in
  let w1 :=
    if 1 <? length w0
    then setCol 1 (zipWith smul (vscale (intSqrt 2) coord) (col 0 w0)) w0
    else w0 in
  (* j runs over 2, ..., order: order - 1 iterations *)
  hermiteLoop coord (order - 1) 2 w1.

(** The body of the loop over the packed indices. *)
Definition packedStep (expW : Vec (T:=T)) (xW yW : Mat) (i : PackedIndex)
    (view : Mat) : Mat :=
  accCol (getIndex i)
    (zipWith smul (zipWith smul expW (col (getX i) xW)) (col (getY i) yW))
    view.

(** [for (PackedIndex i; i.getOrder() <= _order; ++i)] with a bound on the
    number of iterations; [packedLoop_exits] shows that [computeSize order]
    iterations reach the exit test. *)
Fixpoint packedLoop (order : nat) (expW : Vec (T:=T)) (xW yW : Mat)
    (fuel : nat) (i : PackedIndex) (view : Mat) : Mat :=
  match fuel with
  | 0 => view
  | S fuel' =>
      if getOrder i <=? order
      then packedLoop order expW xW yW fuel' (PackedIndex_next i)
             (packedStep expW xW yW i view)
      else view
  end.

(** [ShapeletHelper::apply(ellipseHelper, output)]: the helper with its
    workspaces refilled, and the output with the basis accumulated.  The
    builders write a third argument at their calls; the function has no
    such parameter and its loops run to the member [_order]. *)
Definition ShapeletHelper_apply (sh : ShapeletHelper) (eh : EllipseHelper T)
    (output : Mat) : ShapeletHelper * Mat :=
  let expW := vscale_r (gaussianEnvelope eh) (detFactor eh) in
  let xW := _fillHermite1d (_order sh) (_xWorkspace sh) (xt eh) in
  let yW := _fillHermite1d (_order sh) (_yWorkspace sh) (yt eh) in
  (mkShapeletHelper (_order sh) expW xW yW,
   packedLoop (_order sh) expW xW yW (computeSize (_order sh))
     PackedIndex_first output).
End Shapelet.
Arguments ShapeletHelper T : clear implicits.

(** ** Dense matrices *)

Section Matrices.
Context {T : Type} `{Scalar T}.

(** [m.deep() = 0.0]: every entry set to zero, the shape kept. *)
Definition mzero (m : Mat (T:=T)) : Mat := map (vconst (lit 0)) m.

(** The first [k] columns set to zero: [view.deep() = 0.0] for the view of
    the columns [0, k) of a buffer.  The view shares the storage of the
    buffer, column i of the view being column i of the buffer.  A view wider
    than the buffer makes the C++ write past the buffer; here only the
    columns that exist are zeroed, which is the code's behaviour for
    [k <= length m] only. *)
Definition zeroCols (k : nat) (m : Mat (T:=T)) : Mat :=
  mzero (firstn k m) ++ skipn k m.

(** Column [a * w] of a product: the combination of the columns of [a]
    with the weights [w], over [rows] samples. *)
Definition lincomb (rows : nat) (a : Mat (T:=T)) (w : Vec (T:=T)) : Vec :=
  fold_left (fun acc cw => zipWith sadd acc (vscale_r (fst cw) (snd cw)))
    (combine a w) (vzero rows).

(** [a * m], [m] given by its columns.  Eigen requires the number of
    columns of [a] to be the number of rows of [m]; where they differ the
    C++ product is not defined, and [combine] here stops at the shorter of
    the two: the product is the code's for equal inner extents only. *)
Definition mmul (rows : nat) (a m : Mat (T:=T)) : Mat :=
  map (lincomb rows a) m.

Fixpoint madd (a b : Mat (T:=T)) : Mat :=
  match a, b with
  | x :: a', y :: b' => zipWith sadd x y :: madd a' b'
  | _, _ => []
  end.

(** [m *= c] *)
Definition mscale (m : Mat (T:=T)) (c : T) : Mat :=
  map (fun v => vscale_r v c) m.
End Matrices.

(** ** The shapelet collaborators *)

Section Collaborators.
Context {T : Type} `{Scalar T} `{Geometry T}.

(** [ShapeletFunction], as read by the factory. *)
Record ShapeletFunction : Type := mkShapeletFunction {
  sf_getOrder : nat;
  sf_getEllipse : Ellipse;
  sf_getCoefficients : Vec (T:=T)
}.

Record MultiShapeletFunction : Type := mkMultiShapeletFunction {
  getElements : list ShapeletFunction
}.

Record MultiShapeletBasisComponent : Type := mkBasisComponent {
  getRadius : T;
  comp_getOrder : nat;
  getMatrix : Mat (T:=T)
}.

(** [MultiShapeletBasis]: its size and its components in iteration order. *)
Record MultiShapeletBasis : Type := mkMultiShapeletBasis {
  getSize : nat;
  getComponents : list MultiShapeletBasisComponent
}.
End Collaborators.
Arguments ShapeletFunction T {_}.
Arguments MultiShapeletFunction T {_}.
Arguments MultiShapeletBasisComponent T : clear implicits.
Arguments MultiShapeletBasis T : clear implicits.

(** [GaussHermiteConvolution]: built from an order and a shapelet function;
    [evaluate] takes the ellipse by reference, replaces it by the convolved
    ellipse and returns the matrix. *)
Class Convolution (T : Type) {S : Scalar T} {G : Geometry T} : Type := {
  GaussHermiteConvolution : Type;
  GaussHermiteConvolution_new : nat -> ShapeletFunction T -> GaussHermiteConvolution;
  getRowOrder : GaussHermiteConvolution -> nat;
  getColOrder : GaussHermiteConvolution -> nat;
  evaluate : GaussHermiteConvolution -> Ellipse -> Ellipse * Mat (T:=T)
}.
Arguments Convolution T {S G}.

(** ** Errors *)

Inductive Exception : Type :=
| LengthError
| LogicError.

Inductive result (A : Type) : Type :=
| Ok : A -> result A
| Err : Exception -> result A.
Arguments Ok {A} _.
Arguments Err {A} _.

Definition bind {A B : Type} (r : result A) (k : A -> result B) : result B :=
  match r with
  | Ok a => k a
  | Err e => Err e
  end.

(** ** The base class *)

Section Base.
Context {T : Type} `{Scalar T}.

(** [_basisSize] and the two columns of [_xy]. *)
Record MatrixBuilder : Type := mkMatrixBuilder {
  _basisSize : nat;
  _xy0 : Vec (T:=T);
  _xy1 : Vec (T:=T)
}.

Definition getDataSize (b : MatrixBuilder) : nat := length (_xy0 b).
Definition getBasisSize (b : MatrixBuilder) : nat := _basisSize b.

(** [MatrixBuilder::MatrixBuilder]: LSST_THROW_IF_NE on the two sizes, then
    the two copies. *)
Definition MatrixBuilder_new (x y : Vec (T:=T)) (basisSize : nat)
    : result MatrixBuilder :=
  if length x =? length y
  then Ok (mkMatrixBuilder basisSize x y)
  else Err LengthError.
End Base.
Arguments MatrixBuilder T : clear implicits.

(** ** The builder variants *)

Section Builders.
Context {T : Type} {S : Scalar T} {G : Geometry T} {C : Convolution T}.

(** *** GaussianMatrixBuilder *)

Record GaussianMatrixBuilder : Type := mkGaussian {
  g_base : MatrixBuilder T;
  g_ellipseHelper : EllipseHelper T
}.

Definition GaussianMatrixBuilder_new (x y : Vec (T:=T))
    : result GaussianMatrixBuilder :=
  bind (MatrixBuilder_new x y 1) (fun base =>
  Ok (mkGaussian base (EllipseHelper_new (getDataSize base)))).

(** [output.transpose()[0]] is column 0 of the output. *)
Definition GaussianMatrixBuilder_apply (b : GaussianMatrixBuilder)
    (output : Mat (T:=T)) (ellipse : Ellipse) : GaussianMatrixBuilder * Mat :=
  let output := mzero output in
  let eh := readEllipse (_xy0 (g_base b)) (_xy1 (g_base b)) ellipse in
  (mkGaussian (g_base b) eh,
   setCol 0 (GaussianHelper_apply eh (col 0 output)) output).

(** *** ConvolvedGaussianMatrixBuilder *)

Record ConvolvedGaussianMatrixBuilder : Type := mkConvolvedGaussian {
  cg_base : MatrixBuilder T;
  cg_ellipseHelper : EllipseHelper T;
  _psfEllipse : Ellipse;
  _psfCoefficient : T
}.

Definition ConvolvedGaussianMatrixBuilder_new (x y : Vec (T:=T))
    (psfEllipse : Ellipse) (psfCoefficient : T)
    : result ConvolvedGaussianMatrixBuilder :=
  bind (MatrixBuilder_new x y 1) (fun base =>
  Ok (mkConvolvedGaussian base (EllipseHelper_new (getDataSize base))
        psfEllipse psfCoefficient)).

Definition ConvolvedGaussianMatrixBuilder_apply
    (b : ConvolvedGaussianMatrixBuilder) (output : Mat (T:=T))
    (ellipse : Ellipse) : ConvolvedGaussianMatrixBuilder * Mat :=
  let output := mzero output in
  let eh := readEllipse (_xy0 (cg_base b)) (_xy1 (cg_base b))
              (convolve ellipse (_psfEllipse b)) in
  let output := setCol 0 (GaussianHelper_apply eh (col 0 output)) output in
  (mkConvolvedGaussian (cg_base b) eh (_psfEllipse b) (_psfCoefficient b),
   mscale output (_psfCoefficient b / FLUX_FACTOR)%S).

(** *** ShapeletMatrixBuilder *)

Record ShapeletMatrixBuilder : Type := mkShapelet {
  s_base : MatrixBuilder T;
  s_order : nat;
  s_ellipseHelper : EllipseHelper T;
  s_shapeletHelper : ShapeletHelper T
}.

Definition ShapeletMatrixBuilder_new (x y : Vec (T:=T)) (order : nat)
    : result ShapeletMatrixBuilder :=
  bind (MatrixBuilder_new x y (computeSize order)) (fun base =>
  Ok (mkShapelet base order (EllipseHelper_new (getDataSize base))
        (ShapeletHelper_new (getDataSize base) order))).

Definition ShapeletMatrixBuilder_apply (b : ShapeletMatrixBuilder)
    (output : Mat (T:=T)) (ellipse : Ellipse) : ShapeletMatrixBuilder * Mat :=
  let output := mzero output in
  let eh := readEllipse (_xy0 (s_base b)) (_xy1 (s_base b)) ellipse in
  let '(sh, output) := ShapeletHelper_apply (s_shapeletHelper b) eh output in
  (mkShapelet (s_base b) (s_order b) eh sh, output).

(** *** ConvolvedShapeletMatrixBuilder *)

Record ConvolvedShapeletMatrixBuilder : Type := mkConvolvedShapelet {
  cs_base : MatrixBuilder T;
  _convolution : GaussHermiteConvolution;
  cs_convolutionWorkspace : Mat (T:=T);
  cs_ellipseHelper : EllipseHelper T;
  cs_shapeletHelper : ShapeletHelper T
}.

(** [ndarray::allocate(rows, cols)]: [cols] columns of [rows] entries. *)
Definition allocate (rows cols : nat) : Mat (T:=T) := repeat (vzero rows) cols.

Definition ConvolvedShapeletMatrixBuilder_new (x y : Vec (T:=T))
    (psf : ShapeletFunction T) (order : nat)
    : result ConvolvedShapeletMatrixBuilder :=
  bind (MatrixBuilder_new x y (computeSize order)) (fun base =>
  let convolution := GaussHermiteConvolution_new order psf in
  Ok (mkConvolvedShapelet base convolution
        (allocate (getDataSize base) (getRowOrder convolution))
        (EllipseHelper_new (getDataSize base))
        (ShapeletHelper_new (getDataSize base) (getRowOrder convolution)))).

Definition ConvolvedShapeletMatrixBuilder_apply
    (b : ConvolvedShapeletMatrixBuilder) (output : Mat (T:=T))
    (ellipse : Ellipse) : ConvolvedShapeletMatrixBuilder * Mat :=
  let workspace := mzero (cs_convolutionWorkspace b) in
  let '(convolvedEllipse, convolutionMatrix) :=
    evaluate (_convolution b) ellipse in
  let eh := readEllipse (_xy0 (cs_base b)) (_xy1 (cs_base b)) convolvedEllipse in
  let '(sh, workspace) :=
    ShapeletHelper_apply (cs_shapeletHelper b) eh workspace in
  (mkConvolvedShapelet (cs_base b) (_convolution b) workspace eh sh,
   mmul (getDataSize (cs_base b)) workspace convolutionMatrix).

(** *** MultiShapeletMatrixBuilder0 *)

Record MultiShapeletMatrixBuilder0 : Type := mkMulti {
  m_base : MatrixBuilder T;
  _basis : MultiShapeletBasis T;
  m_ellipseHelper : EllipseHelper T;
  m_shapeletHelper : ShapeletHelper T;
  m_basisWorkspace : Mat (T:=T)
}.

Definition _computeMaxOrder (basis : MultiShapeletBasis T) : nat :=
  fold_left (fun maxOrder c => Nat.max maxOrder (comp_getOrder c))
    (getComponents basis) 0.

(** [getMaxOrder] of the helper is the order it was built with. *)
Definition MultiShapeletMatrixBuilder0_new (x y : Vec (T:=T))
    (basis : MultiShapeletBasis T) : result MultiShapeletMatrixBuilder0 :=
  bind (MatrixBuilder_new x y (getSize basis)) (fun base =>
  let sh := ShapeletHelper_new (getDataSize base) (_computeMaxOrder basis) in
  Ok (mkMulti base basis (EllipseHelper_new (getDataSize base)) sh
        (allocate (getDataSize base) (computeSize (_order sh))))).

(** The loop state: helpers, workspace, output and [lastRadius]. *)
Record MultiState : Type := mkMultiState {
  ms_ellipseHelper : EllipseHelper T;
  ms_shapeletHelper : ShapeletHelper T;
  ms_basisWorkspace : Mat (T:=T);
  ms_output : Mat (T:=T);
  ms_lastRadius : T
}.

(** One iteration of the loop over the components of the basis. *)
Definition multiStep (rows : nat) (st : MultiState)
    (c : MultiShapeletBasisComponent T) : MultiState :=
  let eh := scale (ms_ellipseHelper st) (getRadius c / ms_lastRadius st)%S in
  let width := computeSize (comp_getOrder c) in
  let buffer := zeroCols width (ms_basisWorkspace st) in
  let '(sh, buffer) := ShapeletHelper_apply (ms_shapeletHelper st) eh buffer in
  mkMultiState eh sh buffer
    (madd (ms_output st) (mmul rows (firstn width buffer) (getMatrix c)))
    (getRadius c).

Definition MultiShapeletMatrixBuilder0_apply (b : MultiShapeletMatrixBuilder0)
    (output : Mat (T:=T)) (ellipse : Ellipse)
    : MultiShapeletMatrixBuilder0 * Mat :=
  let output := mzero output in
  let eh := readEllipse (_xy0 (m_base b)) (_xy1 (m_base b)) ellipse in
  let st := fold_left (multiStep (getDataSize (m_base b)))
              (getComponents (_basis b))
              (mkMultiState eh (m_shapeletHelper b) (m_basisWorkspace b)
                 output (lit 1)) in
  (mkMulti (m_base b) (_basis b) (ms_ellipseHelper st)
     (ms_shapeletHelper st) (ms_basisWorkspace st),
   ms_output st).

(** *** ConvolvedMultiShapeletMatrixBuilder *)

Record Component : Type := mkComponent {
  convolution : GaussHermiteConvolution;
  radius : T;
  matrix : Mat (T:=T)
}.

Definition Component_new (component : MultiShapeletBasisComponent T)
    (psf : ShapeletFunction T) : Component :=
  mkComponent (GaussHermiteConvolution_new (comp_getOrder component) psf)
    (getRadius component) (getMatrix component).

Definition getRowSize (c : Component) : nat :=
  computeSize (getRowOrder (convolution c)).
Definition getColSize (c : Component) : nat :=
  computeSize (getColOrder (convolution c)).

Record ConvolvedMultiShapeletMatrixBuilder : Type := mkConvolvedMulti {
  cm_base : MatrixBuilder T;
  cm_ellipseHelper : EllipseHelper T;
  cm_shapeletHelper : ShapeletHelper T;
  _components : list Component;
  cm_basisWorkspace : Mat (T:=T);
  cm_convolutionWorkspace : Mat (T:=T)
}.

(** The components in the order of the two nested loops of the
    constructor: basis components outside, PSF elements inside. *)
Definition makeComponents (psf : MultiShapeletFunction T)
    (basis : MultiShapeletBasis T) : list Component :=
  flat_map (fun b => map (Component_new b) (getElements psf))
    (getComponents basis).

Definition maxRowOrder (cs : list Component) : nat :=
  fold_left (fun m c => Nat.max m (getRowOrder (convolution c))) cs 0.
Definition maxColOrder (cs : list Component) : nat :=
  fold_left (fun m c => Nat.max m (getColOrder (convolution c))) cs 0.

Definition ConvolvedMultiShapeletMatrixBuilder_new (x y : Vec (T:=T))
    (psf : MultiShapeletFunction T) (basis : MultiShapeletBasis T)
    : result ConvolvedMultiShapeletMatrixBuilder :=
  bind (MatrixBuilder_new x y (getSize basis)) (fun base =>
  let components := makeComponents psf basis in
  Ok (mkConvolvedMulti base (EllipseHelper_new (getDataSize base))
        (ShapeletHelper_new (getDataSize base) (maxRowOrder components))
        components
        (allocate (getDataSize base) (maxRowOrder components))
        (allocate (maxRowOrder components) (maxColOrder components)))).

Record ConvolvedMultiState : Type := mkConvolvedMultiState {
  cms_ellipseHelper : EllipseHelper T;
  cms_shapeletHelper : ShapeletHelper T;
  cms_basisWorkspace : Mat (T:=T);
  cms_convolutionWorkspace : Mat (T:=T);
  cms_output : Mat (T:=T)
}.

(** One iteration of the loop over [_components]. *)
Definition convolvedMultiStep (rows : nat) (x y : Vec (T:=T))
    (ellipse : Ellipse) (st : ConvolvedMultiState) (c : Component)
    : ConvolvedMultiState :=
  let tmpEllipse := scaleCore ellipse (radius c) in
  let '(tmpEllipse, convolutionMatrix) := evaluate (convolution c) tmpEllipse in
  let eh := readEllipse x y tmpEllipse in
  let buffer := zeroCols (getRowSize c) (cms_basisWorkspace st) in
  let '(sh, buffer) := ShapeletHelper_apply (cms_shapeletHelper st) eh buffer in
  let convolutionView := mmul (getRowSize c) convolutionMatrix (matrix c) in
  mkConvolvedMultiState eh sh buffer convolutionView
    (madd (cms_output st)
       (mmul rows (firstn (getRowSize c) buffer) convolutionView)).

Definition ConvolvedMultiShapeletMatrixBuilder_apply
    (b : ConvolvedMultiShapeletMatrixBuilder) (output : Mat (T:=T))
    (ellipse : Ellipse) : ConvolvedMultiShapeletMatrixBuilder * Mat :=
  let output := mzero output in
  let st := fold_left
              (convolvedMultiStep (getDataSize (cm_base b))
                 (_xy0 (cm_base b)) (_xy1 (cm_base b)) ellipse)
              (_components b)
              (mkConvolvedMultiState (cm_ellipseHelper b) (cm_shapeletHelper b)
                 (cm_basisWorkspace b) (cm_convolutionWorkspace b) output) in
  (mkConvolvedMulti (cm_base b) (cms_ellipseHelper st) (cms_shapeletHelper st)
     (_components b) (cms_basisWorkspace st) (cms_convolutionWorkspace st),
   cms_output st).
End Builders.
Arguments GaussianMatrixBuilder T : clear implicits.
Arguments ConvolvedGaussianMatrixBuilder T {_}.
Arguments ShapeletMatrixBuilder T : clear implicits.
Arguments ConvolvedShapeletMatrixBuilder T {_ _ _}.
Arguments MultiShapeletMatrixBuilder0 T : clear implicits.
Arguments ConvolvedMultiShapeletMatrixBuilder T {_ _ _}.
Arguments Component T {_ _ _}.
Arguments MultiState T : clear implicits.
Arguments ConvolvedMultiState T : clear implicits.

(** ** The polymorphic builder and the factory *)

Section Factory.
Context {T : Type} {S : Scalar T} {G : Geometry T} {C : Convolution T}.

(** The closed set of classes derived from [MatrixBuilder<T>]. *)
Inductive Builder : Type :=
| BGaussian (b : GaussianMatrixBuilder T)
| BConvolvedGaussian (b : ConvolvedGaussianMatrixBuilder T)
| BShapelet (b : ShapeletMatrixBuilder T)
| BConvolvedShapelet (b : ConvolvedShapeletMatrixBuilder T)
| BMultiShapelet (b : MultiShapeletMatrixBuilder0 T)
| BConvolvedMultiShapelet (b : ConvolvedMultiShapeletMatrixBuilder T).

Definition base (b : Builder) : MatrixBuilder T :=
  match b with
  | BGaussian b => g_base b
  | BConvolvedGaussian b => cg_base b
  | BShapelet b => s_base b
  | BConvolvedShapelet b => cs_base b
  | BMultiShapelet b => m_base b
  | BConvolvedMultiShapelet b => cm_base b
  end.

(** The virtual [apply]. *)
Definition apply (b : Builder) (output : Mat (T:=T)) (ellipse : Ellipse)
    : Builder * Mat :=
  match b with
  | BGaussian b =>
      let '(b, o) := GaussianMatrixBuilder_apply b output ellipse in
      (BGaussian b, o)
  | BConvolvedGaussian b =>
      let '(b, o) := ConvolvedGaussianMatrixBuilder_apply b output ellipse in
      (BConvolvedGaussian b, o)
  | BShapelet b =>
      let '(b, o) := ShapeletMatrixBuilder_apply b output ellipse in
      (BShapelet b, o)
  | BConvolvedShapelet b =>
      let '(b, o) := ConvolvedShapeletMatrixBuilder_apply b output ellipse in
      (BConvolvedShapelet b, o)
  | BMultiShapelet b =>
      let '(b, o) := MultiShapeletMatrixBuilder0_apply b output ellipse in
      (BMultiShapelet b, o)
  | BConvolvedMultiShapelet b =>
      let '(b, o) := ConvolvedMultiShapeletMatrixBuilder_apply b output ellipse in
      (BConvolvedMultiShapelet b, o)
  end.

Definition rmap {A B : Type} (f : A -> B) (r : result A) : result B :=
  bind r (fun a => Ok (f a)).

(** [makeMatrixBuilder(x, y, int order)] *)
Definition makeMatrixBuilder_order (x y : Vec (T:=T)) (order : nat)
    : result Builder :=
  if order =? 0
  then rmap BGaussian (GaussianMatrixBuilder_new x y)
  else rmap BShapelet (ShapeletMatrixBuilder_new x y order).

(** [makeMatrixBuilder(x, y, ShapeletFunction const & psf, int order)] *)
Definition makeMatrixBuilder_psf (x y : Vec (T:=T)) (psf : ShapeletFunction T)
    (order : nat) : result Builder :=
  if (order =? 0) && (sf_getOrder psf =? 0)
  then rmap BConvolvedGaussian
         (ConvolvedGaussianMatrixBuilder_new x y (sf_getEllipse psf)
            (nth 0 (sf_getCoefficients psf) (lit 0)))
  else rmap BConvolvedShapelet (ConvolvedShapeletMatrixBuilder_new x y psf order).

(** [makeMatrixBuilder(x, y, MultiShapeletFunction const & psf, int order)] *)
Definition makeMatrixBuilder_multipsf (x y : Vec (T:=T))
    (psf : MultiShapeletFunction T) (order : nat) : result Builder :=
  if length (getElements psf) =? 1
  then match getElements psf with
       | front :: _ => makeMatrixBuilder_psf x y front order
       | [] => Err LogicError
       end
  else Err LogicError.

(** [makeMatrixBuilder(x, y, MultiShapeletBasis const & basis)] *)
Definition makeMatrixBuilder_basis (x y : Vec (T:=T))
    (basis : MultiShapeletBasis T) : result Builder :=
  rmap BMultiShapelet (MultiShapeletMatrixBuilder0_new x y basis).

(** [makeMatrixBuilder(x, y, MultiShapeletFunction const & psf,
    MultiShapeletBasis const & basis)]: the body is the one statement
    [throw pex::exceptions::LogicError("Not implemented")]. *)
Definition makeMatrixBuilder_multipsf_basis (x y : Vec (T:=T))
    (psf : MultiShapeletFunction T) (basis : MultiShapeletBasis T)
    : result Builder :=
  Err LogicError.
End Factory.

(** ** Direct construction *)

Section Construction.
Context {T : Type} {S : Scalar T} {G : Geometry T} {C : Convolution T}.

(** A constructor call of one of the six classes, without the samples. *)
Inductive Construction : Type :=
| NewGaussian
| NewConvolvedGaussian (psfEllipse : Ellipse) (psfCoefficient : T)
| NewShapelet (order : nat)
| NewConvolvedShapelet (psf : ShapeletFunction T) (order : nat)
| NewMultiShapelet (basis : MultiShapeletBasis T)
| NewConvolvedMultiShapelet (psf : MultiShapeletFunction T)
    (basis : MultiShapeletBasis T).

Definition construct (c : Construction) (x y : Vec (T:=T)) : result Builder :=
  match c with
  | NewGaussian => rmap BGaussian (GaussianMatrixBuilder_new x y)
  | NewConvolvedGaussian e k =>
      rmap BConvolvedGaussian (ConvolvedGaussianMatrixBuilder_new x y e k)
  | NewShapelet order => rmap BShapelet (ShapeletMatrixBuilder_new x y order)
  | NewConvolvedShapelet psf order =>
      rmap BConvolvedShapelet (ConvolvedShapeletMatrixBuilder_new x y psf order)
  | NewMultiShapelet basis =>
      rmap BMultiShapelet (MultiShapeletMatrixBuilder0_new x y basis)
  | NewConvolvedMultiShapelet psf basis =>
      rmap BConvolvedMultiShapelet
        (ConvolvedMultiShapeletMatrixBuilder_new x y psf basis)
  end.
End Construction.

(** ** Statements of the evaluators, in the words of the specification *)

Section Statements.
Context {T : Type} `{Scalar T}.

(** The three-term recurrence on a table of values, [value j s] being the
    value of degree [j] at sample [s]: degree 0 is the normalization
    constant, degree 1 is sqrt(2) * coord * value[0], and degree j >= 2 is
    sqrt(2/j) * coord * value[j-1] - sqrt((j-1)/j) * value[j-2]. *)
Definition hermiteRecurrence (n : nat) (coord : nat -> T)
    (value : nat -> nat -> T) (s : nat) : Prop :=
  value 0 s = BASIS_NORMALIZATION /\
  (1 <= n -> value 1 s = (intSqrt 2 * coord s * value 0 s)%S) /\
  (forall j, 2 <= j <= n ->
     value j s =
     (rationalSqrt 2 j * coord s * value (j - 1)%nat s
      - rationalSqrt (j - 1)%nat j * value (j - 2)%nat s)%S).

(** A table with a line for each of the degrees 0..n, every line holding
    one value per sample. *)
Definition tableFor (n samples : nat) (table : Mat (T:=T)) : Prop :=
  n < length table /\
  forall j, j <= n -> length (col j table) = samples.
End Statements.

(** ** The packed enumeration and the loop over it *)

(** The index reached from the first one by [k] increments. *)
Definition packedAt (k : nat) : PackedIndex :=
  Nat.iter k PackedIndex_next PackedIndex_first.

(** What the increments keep true of an index: the two degrees add up to the
    order, and the position counts the indices before it. *)
Definition packedInv (i : PackedIndex) : Prop :=
  getX i + getY i = getOrder i /\
  getIndex i + getX i + 1 = computeSize (getOrder i).

Section PackedRun.
Context {T : Type} `{Scalar T}.


End PackedRun.

(** ** Well-formed builders *)

Section WellFormed.
Context {T : Type} {S : Scalar T} {G : Geometry T} {C : Convolution T}.

(** Every column holds one value per sample. *)
Definition colsOf (samples : nat) (m : Mat (T:=T)) : Prop :=
  Forall (fun c => length c = samples) m.


Definition samplesWf (b : MatrixBuilder T) : Prop :=
  length (_xy0 b) = length (_xy1 b).

End WellFormed.

(** ** Further statements about the builders *)

Section BuilderStatements.
Context {T : Type} {S : Scalar T} {G : Geometry T} {C : Convolution T}.

(** A step of the multi-shapelet loop that divides the coordinates read
    from the ellipse, [eh0], by the radius of the component itself, without
    going through the radius of the previous component: what the loop is
    compared with. *)
Definition multiStepAbsolute (rows : nat) (eh0 : EllipseHelper T)
    (st : MultiState T) (c : MultiShapeletBasisComponent T) : MultiState T :=
  let eh := scale eh0 (getRadius c / lit 1)%S in
  let width := computeSize (comp_getOrder c) in
  let buffer := zeroCols width (ms_basisWorkspace st) in
  let '(sh, buffer) := ShapeletHelper_apply (ms_shapeletHelper st) eh buffer in
  mkMultiState eh sh buffer
    (madd (ms_output st) (mmul rows (firstn width buffer) (getMatrix c)))
    (getRadius c).

End BuilderStatements.

(** ** The layout of the helpers in the workspace *)

(** Conversion to [int] and arithmetic in [size_t]. *)
Definition toInt (z : Z) : Z := ((z + 2 ^ 31) mod 2 ^ 32 - 2 ^ 31)%Z.
Definition toSize (z : Z) : Z := (z mod 2 ^ 64)%Z.

(** A view into the workspace: the position of its first element, counted
    in elements of T from the start of the workspace, and its two extents. *)
Record View : Type := mkView {
  view_begin : Z;
  view_rows : Z;
  view_cols : Z
}.

(** [makeView(workspace, rows, cols)]: the view at the pointer, and the
    pointer advanced by [rows*cols], a product of two [int]. *)
Definition makeView2 (workspace rows cols : Z) : View * Z :=
  (mkView workspace rows cols, (workspace + toInt (rows * cols))%Z).

(** [makeView(workspace, size)] *)
Definition makeView1 (workspace size : Z) : View * Z :=
  (mkView workspace size 1, (workspace + size)%Z).

(** The views the constructor of [EllipseHelper] takes, in the order in
    which the members are declared and initialised, and the pointer it
    leaves. *)
Definition EllipseHelper_layout (workspace dataSize : Z) : View * View * Z :=
  let '(xt, workspace) := makeView1 workspace dataSize in
  let '(yt, workspace) := makeView1 workspace dataSize in
  (xt, yt, workspace).

(** [EllipseHelper::computeWorkspace]: [sizeof(T) * dataSize * 2], computed
    in [size_t] and returned as [int]. *)
Definition EllipseHelper_computeWorkspace (sizeofT dataSize : Z) : Z :=
  toInt (toSize (toSize (sizeofT * toSize dataSize) * 2)).

(** The views the constructor of [ShapeletHelper] takes and the pointer it
    leaves. *)
Definition ShapeletHelper_layout (workspace dataSize order : Z)
    : View * View * View * Z :=
  let '(expW, workspace) := makeView1 workspace dataSize in
  let '(xW, workspace) := makeView2 workspace (toInt (order + 1)) dataSize in
  let '(yW, workspace) := makeView2 workspace (toInt (order + 1)) dataSize in
  (expW, xW, yW, workspace).

(** [ShapeletHelper::computeWorkspace]:
    [sizeof(T) * dataSize * (1 + 2*(order + 1))]. *)
Definition ShapeletHelper_computeWorkspace (sizeofT dataSize order : Z) : Z :=
  toInt (toSize (toSize (sizeofT * toSize dataSize)
                 * toSize (toInt (1 + toInt (2 * toInt (order + 1)))))).

(** ** A concrete scalar type: the real numbers *)

(** The exact-arithmetic reading of the scalar operations.  The two
    constants have the values the package gives them, pi^(-1/4) and
    2 sqrt(pi). *)
#[export] Instance Scalar_R : Scalar R := {|
  lit := Q2R;
  ofInt := IZR;
  sadd := Rplus;
  ssub := Rminus;
  smul := Rmult;
  sdiv := Rdiv;
  sexp := exp;
  ssqrt := sqrt;
  M_PI := PI;
  BASIS_NORMALIZATION := (/ sqrt (sqrt PI))%R;
  FLUX_FACTOR := (2 * sqrt PI)%R
|}.

(** Circles centred at the origin, given by their radius, as a small
    geometry to run the builders on: the grid transform divides by the
    radius, and the convolution of two circles adds the squared radii. *)
#[export] Instance Geometry_circles : Geometry R := {|
  Ellipse := R;
  getGridTransform := fun r => mkAffine (/ r)%R 0%R 0%R 0%R (/ r)%R 0%R;
  computeDeterminant := fun t => (XX t * YY t - XY t * YX t)%R;
  convolve := fun a b => sqrt (a * a + b * b)%R;
  scaleCore := fun r f => (r * f)%R
|}.

(** A convolution over the circles: the row order is the sum of the two
    orders, the column order the requested one, and the matrix has every
    entry equal to one. *)
#[export] Instance Convolution_circles : Convolution R := {|
  GaussHermiteConvolution := (nat * ShapeletFunction R)%type;
  GaussHermiteConvolution_new := fun order psf => (order, psf);
  getRowOrder := fun c => fst c + sf_getOrder (snd c);
  getColOrder := fun c => fst c;
  evaluate := fun c e =>
    (convolve e (sf_getEllipse (snd c)),
     repeat (repeat 1%R (computeSize (fst c + sf_getOrder (snd c))))
       (computeSize (fst c)))
|}.

(** ** A concrete scalar type: binary64 *)

(** The arithmetic of [double]: the primitive floats, whose operations round
    to nearest even as IEEE 754 binary64 does.  An [int] is converted digit
    by digit, exactly below 2^53, and a literal is the quotient of its
    numerator and denominator, rounded once.  [std::exp] is a parameter of
    the instance: the C standard fixes its value at a zero argument (1) and
    leaves its rounding elsewhere to the library.  The constants are the
    doubles nearest to pi, pi^(-1/4) and 2 sqrt(pi). *)
Module Binary64.
Import PrimFloat.






(** An exponential to run the builders with: the first twenty terms of the
    series, in Horner form.  It returns 1 at both zeros. *)
Fixpoint expSeries (terms : nat) (k x : float) : float :=
  match terms with
  | O => 1%float
  | S terms' => (1 + x / k * expSeries terms' (k + 1) x)%float
  end.

Definition exp : float -> float := expSeries 20 1.

(** Two samples on the diagonal at 19 * 2^-600 and 29 * 2^-600, the unit
    circle, and two components of order 1 with radii 3 and 7, each with the
    mixing matrix that takes the second basis function. *)
Definition xs : Vec (T:=float) := [0x13p-600; 0x1dp-600]%float.
Definition output1 : Mat (T:=float) := [[0; 0]%float].
End Binary64.

(** ** Sample data *)

Module Sample.
Local Open Scope R_scope.

Definition xs : Vec (T:=R) := [0; 1].
Definition ys : Vec (T:=R) := [0; 0].
Definition xs5 : Vec (T:=R) := [0; 1; 2; 3; 4].
Definition ys4 : Vec (T:=R) := [0; 1; 2; 3].

(** A circular Gaussian PSF of radius 1 and a first-order PSF of radius 2. *)
Definition psf0 : ShapeletFunction R := mkShapeletFunction 0%nat 1 [1].
Definition psf1 : ShapeletFunction R := mkShapeletFunction 1%nat 2 [1; 0; 0].
Definition multiPsf1 : MultiShapeletFunction R := mkMultiShapeletFunction [psf0].
Definition multiPsf2 : MultiShapeletFunction R :=
  mkMultiShapeletFunction [psf0; psf1].

(** A basis of size 1 with a component of order 0 at radius 1 and a
    component of order 1 at radius 2. *)
Definition component0 : MultiShapeletBasisComponent R :=
  mkBasisComponent 1 0%nat [[1]].
Definition component1 : MultiShapeletBasisComponent R :=
  mkBasisComponent 2 1%nat [[1; 0; 0]].
Definition component2 : MultiShapeletBasisComponent R :=
  mkBasisComponent 1 1%nat [[0; 1; 0]].
Definition basis2 : MultiShapeletBasis R :=
  mkMultiShapeletBasis 1%nat [component0; component1].

(** The multi-shapelet builders of the basis of two components and of the
    two bases of one component, as the constructor makes them. *)
Definition multiBuilder (components : list (MultiShapeletBasisComponent R))
    (maxOrder : nat) : MultiShapeletMatrixBuilder0 R :=
  mkMulti (mkMatrixBuilder 1%nat xs ys) (mkMultiShapeletBasis 1%nat components)
    (EllipseHelper_new 2) (ShapeletHelper_new 2 maxOrder)
    (allocate 2 (computeSize maxOrder)).
Definition output1 : Mat (T:=R) := [[0; 0]].
End Sample.

(** * Properties *)

Unset Implicit Arguments.

(** ** Arrays *)

Section ArrayFacts.
Context {T : Type} `{Scalar T}.

Lemma zipWith_length f (a b : Vec (T:=T)) :
  length (zipWith f a b) = Nat.min (length a) (length b).
Proof.
  revert b; induction a as [|x a IH]; intros [|y b]; simpl; auto.
Qed.

Lemma zipWith_nth f (a b : Vec (T:=T)) i d :
  i < length a -> i < length b ->
  nth i (zipWith f a b) d = f (nth i a d) (nth i b d).
Proof.
  revert b i; induction a as [|x a IH]; intros [|y b] [|i]; simpl;
    intros Ha Hb; try lia; auto.
  apply IH; lia.
Qed.

Lemma map_nth_lt (f : T -> T) (a : Vec (T:=T)) i d :
  i < length a -> nth i (map f a) d = f (nth i a d).
Proof.
  revert i; induction a as [|x a IH]; intros [|i]; simpl; intros Hi;
    try lia; auto.
  apply IH; lia.
Qed.

Lemma squaredNorm_length (a b : Vec (T:=T)) :
  length (squaredNorm a b) = Nat.min (length a) (length b).
Proof. apply zipWith_length. Qed.
End ArrayFacts.

(** ** The Gaussian evaluator *)

Section GaussianFacts.
Context {T : Type} `{Scalar T} `{Geometry T}.

Lemma gaussianEnvelope_length (eh : EllipseHelper T) :
  length (gaussianEnvelope eh) = Nat.min (length (xt eh)) (length (yt eh)).
Proof.
  unfold gaussianEnvelope, vscale.
  now rewrite !length_map, squaredNorm_length.
Qed.

Lemma gaussianEnvelope_nth (eh : EllipseHelper T) i d :
  i < length (xt eh) -> i < length (yt eh) ->
  nth i (gaussianEnvelope eh) d =
  sexp (lit (-1 # 2) *
        (nth i (xt eh) d * nth i (xt eh) d + nth i (yt eh) d * nth i (yt eh) d))%S.
Proof.
  intros Hx Hy. unfold gaussianEnvelope, vscale.
  rewrite map_nth_lt by (rewrite length_map, squaredNorm_length; lia).
  rewrite map_nth_lt by (rewrite squaredNorm_length; lia).
  unfold squaredNorm. now rewrite zipWith_nth.
Qed.

(** C4.  For every sample i, the Gaussian evaluator leaves in entry i of
    the output column the sum of the entry's previous content and
    exp(-0.5 * (x'^2 + y'^2)) * detFactor * (1/sqrt(pi)), where (x', y')
    are the normalized coordinates of the sample: it accumulates into the
    column and does not overwrite it. *)
Theorem GaussianHelper_apply_accumulates
    (eh : EllipseHelper T) (output : Vec (T:=T)) (i : nat) (d : T) :
  i < length output -> i < length (xt eh) -> i < length (yt eh) ->
  nth i (GaussianHelper_apply eh output) d =
  (nth i output d +
   sexp (lit (-1 # 2) *
         (nth i (xt eh) d * nth i (xt eh) d + nth i (yt eh) d * nth i (yt eh) d))
   * detFactor eh * (lit 1 / ssqrt M_PI))%S.
Proof.
  intros Ho Hx Hy. unfold GaussianHelper_apply, vscale_r, NORM.
  rewrite zipWith_nth; [| assumption
                        | rewrite !length_map, gaussianEnvelope_length; lia].
  f_equal.
  rewrite map_nth_lt by (rewrite length_map, gaussianEnvelope_length; lia).
  rewrite map_nth_lt by (rewrite gaussianEnvelope_length; lia).
  now rewrite gaussianEnvelope_nth.
Qed.
End GaussianFacts.

(** The accumulation at one sample with prior content 5, normalized
    coordinates (3, 4) and determinant factor 2. *)
Lemma GaussianHelper_apply_accumulates_witness :
  nth 0 (GaussianHelper_apply (mkEllipseHelper 2%R [3%R] [4%R]) [5%R]) 0%R =
  (5 + exp (Q2R (-1 # 2) * (3 * 3 + 4 * 4)) * 2 * (Q2R 1 / sqrt PI))%R.
Proof.
  refine (GaussianHelper_apply_accumulates
            (mkEllipseHelper 2%R [3%R] [4%R]) [5%R] 0 0%R _ _ _); simpl; lia.
Defined.

(** ** The Hermite recurrence *)

Section HermiteFacts.
Context {T : Type} `{Scalar T}.

Lemma setCol_length j (v : Vec (T:=T)) m : length (setCol j v m) = length m.
Proof.
  revert j; induction m as [|c m IH]; intros [|j]; simpl; auto.
Qed.

Lemma col_setCol_eq j (v : Vec (T:=T)) m :
  j < length m -> col j (setCol j v m) = v.
Proof.
  unfold col. revert j; induction m as [|c m IH]; intros [|j]; simpl;
    intros Hj; try lia; auto.
  apply IH; lia.
Qed.

Lemma col_setCol_neq i j (v : Vec (T:=T)) m :
  i <> j -> col i (setCol j v m) = col i m.
Proof.
  unfold col. revert i j; induction m as [|c m IH]; intros [|i] [|j]; simpl;
    intros Hij; try congruence; auto.
Qed.

Lemma hermiteStep_length coord j (m : Mat (T:=T)) :
  length (hermiteStep coord j m) = length m.
Proof. apply setCol_length. Qed.

Lemma hermiteLoop_length coord count j (m : Mat (T:=T)) :
  length (hermiteLoop coord count j m) = length m.
Proof.
  revert j m; induction count as [|c IH]; intros j m; simpl; auto.
  now rewrite IH, hermiteStep_length.
Qed.

(** The loop leaves the lines below its current index as they are. *)
Lemma hermiteLoop_below coord count j (m : Mat (T:=T)) i :
  i < j -> col i (hermiteLoop coord count j m) = col i m.
Proof.
  revert j m; induction count as [|c IH]; intros j m Hi; simpl; auto.
  rewrite IH by lia. unfold hermiteStep. apply col_setCol_neq; lia.
Qed.

(** Every line the loop passes holds the recurrence over the two lines
    before it, read in the final table. *)
Lemma hermiteLoop_line coord count j (m : Mat (T:=T)) k :
  2 <= j -> j <= k < j + count -> k < length m ->
  let w := hermiteLoop coord count j m in
  col k w =
  zipWith ssub
    (zipWith smul (vscale (rationalSqrt 2 k) coord) (col (k - 1) w))
    (vscale (rationalSqrt (k - 1) k) (col (k - 2) w)).
Proof.
  revert j m; induction count as [|c IH]; intros j m Hj Hk Hlen; [lia|].
  simpl. destruct (Nat.eq_dec k j) as [->|Hne].
  - rewrite !hermiteLoop_below by lia.
    unfold hermiteStep at 1. rewrite col_setCol_eq by assumption.
    unfold hermiteStep. rewrite !col_setCol_neq by lia. reflexivity.
  - apply IH; [lia | lia | now rewrite hermiteStep_length].
Qed.

Lemma fill_length n (m : Mat (T:=T)) coord :
  length (_fillHermite1d n m coord) = length m.
Proof.
  unfold _fillHermite1d. rewrite hermiteLoop_length.
  destruct (0 <? length m); destruct (1 <? _) eqn:E;
    rewrite ?setCol_length; reflexivity.
Qed.

Lemma fill_col0 n (m : Mat (T:=T)) coord :
  0 < length m ->
  col 0 (_fillHermite1d n m coord) = vconst BASIS_NORMALIZATION (col 0 m).
Proof.
  intros Hm. unfold _fillHermite1d.
  rewrite hermiteLoop_below by lia.
  apply Nat.ltb_lt in Hm as Hm'. rewrite Hm'.
  destruct (1 <? _) eqn:E.
  - rewrite col_setCol_neq by lia. now apply col_setCol_eq.
  - now apply col_setCol_eq.
Qed.

Lemma fill_col1 n (m : Mat (T:=T)) coord :
  1 < length m ->
  let w := _fillHermite1d n m coord in
  col 1 w = zipWith smul (vscale (intSqrt 2) coord) (col 0 w).
Proof.
  intros Hm w. subst w. unfold _fillHermite1d.
  rewrite !hermiteLoop_below by lia.
  assert (H0 : (0 <? length m) = true) by (apply Nat.ltb_lt; lia).
  rewrite H0. rewrite setCol_length.
  assert (H1 : (1 <? length m) = true) by (apply Nat.ltb_lt; lia).
  rewrite H1. rewrite col_setCol_eq by (rewrite setCol_length; lia).
  rewrite (col_setCol_neq 0 1) by lia. reflexivity.
Qed.

Lemma fill_colj n (m : Mat (T:=T)) coord j :
  2 <= j <= n -> j < length m ->
  let w := _fillHermite1d n m coord in
  col j w =
  zipWith ssub
    (zipWith smul (vscale (rationalSqrt 2 j) coord) (col (j - 1) w))
    (vscale (rationalSqrt (j - 1) j) (col (j - 2) w)).
Proof.
  intros Hj Hm. unfold _fillHermite1d.
  apply hermiteLoop_line; [lia | lia |].
  destruct (0 <? length m); destruct (1 <? _) eqn:E;
    rewrite ?setCol_length; assumption.
Qed.

(** Every line up to the order has one value per coordinate. *)
Lemma fill_line_length n (m : Mat (T:=T)) coord :
  n < length m -> length (col 0 m) = length coord ->
  forall j, j <= n -> length (col j (_fillHermite1d n m coord)) = length coord.
Proof.
  intros Hn H0 j. induction j as [j IH] using lt_wf_ind. intros Hj.
  destruct j as [|[|j]].
  - rewrite fill_col0 by lia. unfold vconst. now rewrite length_map.
  - rewrite fill_col1 by lia. unfold vscale.
    rewrite zipWith_length, length_map, (IH 0) by lia. lia.
  - rewrite fill_colj by lia. unfold vscale.
    rewrite !zipWith_length, !length_map.
    rewrite (IH (S (S j) - 1)), (IH (S (S j) - 2)) by lia. lia.
Qed.

Lemma fill_tableFor n (m : Mat (T:=T)) coord :
  tableFor n (length coord) m ->
  tableFor n (length coord) (_fillHermite1d n m coord).
Proof.
  intros [Hn Hl]. split.
  - now rewrite fill_length.
  - apply fill_line_length; [assumption | apply Hl; lia].
Qed.

(** The table left by [_fillHermite1d] obeys the recurrence at every
    sample. *)
Lemma fillHermite1d_recurrence n (m : Mat (T:=T)) coord (d : T) s :
  tableFor n (length coord) m -> s < length coord ->
  hermiteRecurrence n (fun s => nth s coord d)
    (fun j s => nth s (col j (_fillHermite1d n m coord)) d) s.
Proof.
  intros Ht Hs. pose proof (fill_tableFor n m coord Ht) as [_ Hlen].
  destruct Ht as [Hn Hl]. repeat split.
  - rewrite fill_col0 by lia. unfold vconst.
    rewrite map_nth_lt; [reflexivity | rewrite Hl; lia].
  - intros H1. rewrite fill_col1 by lia. unfold vscale.
    rewrite zipWith_nth; [| rewrite length_map; lia | rewrite Hlen; lia].
    now rewrite map_nth_lt by lia.
  - intros j Hj. rewrite fill_colj by lia. unfold vscale.
    rewrite zipWith_nth;
      [| rewrite zipWith_length, length_map, Hlen; lia
       | rewrite length_map, Hlen; lia].
    rewrite zipWith_nth; [| rewrite length_map; lia | rewrite Hlen; lia].
    rewrite !map_nth_lt by (rewrite ?Hlen; lia). reflexivity.
Qed.

End HermiteFacts.

Lemma BASIS_NORMALIZATION_pos : (0 < BASIS_NORMALIZATION (T:=R))%R.
Proof.
  simpl. apply Rinv_0_lt_compat. apply sqrt_lt_R0. apply sqrt_lt_R0.
  apply PI_RGT_0.
Qed.

Lemma intSqrt_two_gt_one : (1 < intSqrt (T:=R) 2)%R.
Proof.
  unfold intSqrt. simpl. rewrite <- sqrt_1 at 1. apply sqrt_lt_1_alt. lra.
Qed.

(** C3 on the code.  The shapelet builder of order 1 over the one sample
    (1, 1), as the factory makes it, applied to the unit circle.  The
    constructor of the helper gives each table the extents of
    [makeView(workspace, maxOrder + 1, dataSize)], here two rows and one
    column; [_fillHermite1d] writes the normalization into [col(0)], finds
    [cols() > 1] false and writes nothing else.  After [apply] the
    coordinates of the sample are (1, 1), both entries of each table are
    the normalization, and that is not the value of degree 1,
    sqrt(2) * coord * value[0]: the tables hold no value of degree 1. *)
Lemma ShapeletHelper_apply_misses_degree_one :
  exists b b',
    makeMatrixBuilder_order [1%R] [1%R] 1 = Ok (BShapelet b) /\
    fst (apply (BShapelet b) [[0%R]; [0%R]; [0%R]] 1%R) = BShapelet b' /\
    xt (s_ellipseHelper b') = [1%R] /\
    yt (s_ellipseHelper b') = [1%R] /\
    _xWorkspace (s_shapeletHelper b') =
      [[BASIS_NORMALIZATION; BASIS_NORMALIZATION]] /\
    _yWorkspace (s_shapeletHelper b') =
      [[BASIS_NORMALIZATION; BASIS_NORMALIZATION]] /\
    (intSqrt 2 * 1%R * BASIS_NORMALIZATION)%S <> BASIS_NORMALIZATION.
Proof.
  eexists. eexists. split; [reflexivity|]. split; [reflexivity|].
  split; [simpl; f_equal; field|]. split; [simpl; f_equal; field|].
  split; [reflexivity|]. split; [reflexivity|].
  intros E.
  change (intSqrt 2 * 1 * BASIS_NORMALIZATION = BASIS_NORMALIZATION)%R in E.
  pose proof BASIS_NORMALIZATION_pos as Hb.
  pose proof intSqrt_two_gt_one as Hs.
  assert (Hp : (0 < (intSqrt 2 - 1) * BASIS_NORMALIZATION)%R)
    by (apply Rmult_lt_0_compat; lra).
  lra.
Qed.

(** ** Construction and dispatch *)

Section ConstructionFacts.
Context {T : Type} {S : Scalar T} {G : Geometry T} {C : Convolution T}.

Lemma MatrixBuilder_new_mismatch (x y : Vec (T:=T)) n :
  length x <> length y -> MatrixBuilder_new x y n = Err LengthError.
Proof.
  intros Hne. unfold MatrixBuilder_new.
  destruct (length x =? length y) eqn:E; [|reflexivity].
  apply Nat.eqb_eq in E. contradiction.
Qed.

Lemma MatrixBuilder_new_match (x y : Vec (T:=T)) n :
  length x = length y ->
  MatrixBuilder_new x y n = Ok (mkMatrixBuilder n x y).
Proof.
  intros He. unfold MatrixBuilder_new.
  apply Nat.eqb_eq in He. now rewrite He.
Qed.

Lemma construct_mismatch (c : Construction) (x y : Vec (T:=T)) :
  length x <> length y -> construct c x y = Err LengthError.
Proof.
  intros Hne. destruct c; simpl; unfold rmap,
    GaussianMatrixBuilder_new, ConvolvedGaussianMatrixBuilder_new,
    ShapeletMatrixBuilder_new, ConvolvedShapeletMatrixBuilder_new,
    MultiShapeletMatrixBuilder0_new, ConvolvedMultiShapeletMatrixBuilder_new;
    now rewrite MatrixBuilder_new_mismatch.
Qed.

Lemma construct_match (c : Construction) (x y : Vec (T:=T)) :
  length x = length y -> exists b, construct c x y = Ok b.
Proof.
  intros He. destruct c; simpl; unfold rmap,
    GaussianMatrixBuilder_new, ConvolvedGaussianMatrixBuilder_new,
    ShapeletMatrixBuilder_new, ConvolvedShapeletMatrixBuilder_new,
    MultiShapeletMatrixBuilder0_new, ConvolvedMultiShapeletMatrixBuilder_new;
    rewrite MatrixBuilder_new_match by assumption; simpl; eexists; reflexivity.
Qed.

(** C6.  Whichever of the six builders is constructed, sample arrays of
    unequal length make the construction end with the length-mismatch
    error, no builder being made; with arrays of equal length the
    construction yields a builder and raises no error. *)
Theorem construct_length_check (c : Construction) (x y : Vec (T:=T)) :
  (length x <> length y -> construct c x y = Err LengthError) /\
  (length x = length y -> exists b, construct c x y = Ok b).
Proof.
  split; [apply construct_mismatch | apply construct_match].
Qed.

(** The factory overloads that construct a builder pass the samples to its
    constructor, and so end with the same error. *)
Lemma makeMatrixBuilder_length_check (x y : Vec (T:=T)) :
  length x <> length y ->
  (forall order, makeMatrixBuilder_order x y order = Err LengthError) /\
  (forall psf order, makeMatrixBuilder_psf x y psf order = Err LengthError) /\
  (forall basis, makeMatrixBuilder_basis x y basis = Err LengthError).
Proof.
  intros Hne. repeat split.
  - intros order. unfold makeMatrixBuilder_order.
    destruct (order =? 0).
    + exact (construct_mismatch NewGaussian x y Hne).
    + exact (construct_mismatch (NewShapelet order) x y Hne).
  - intros psf order. unfold makeMatrixBuilder_psf.
    destruct ((order =? 0) && (sf_getOrder psf =? 0)).
    + exact (construct_mismatch
               (NewConvolvedGaussian (sf_getEllipse psf)
                  (nth 0 (sf_getCoefficients psf) (lit 0))) x y Hne).
    + exact (construct_mismatch (NewConvolvedShapelet psf order) x y Hne).
  - intros basis.
    exact (construct_mismatch (NewMultiShapelet basis) x y Hne).
Qed.

(** C7.  A PSF with more than one element together with an order (no
    basis) makes the factory end with the logic error; no builder is
    returned, whatever the samples and the order. *)
Theorem makeMatrixBuilder_multipsf_rejects
    (x y : Vec (T:=T)) (psf : MultiShapeletFunction T) (order : nat) :
  1 < length (getElements psf) ->
  makeMatrixBuilder_multipsf x y psf order = Err LogicError.
Proof.
  intros Hn. unfold makeMatrixBuilder_multipsf.
  destruct (length (getElements psf) =? 1) eqn:E; [|reflexivity].
  apply Nat.eqb_eq in E. lia.
Qed.

(** C1, as the code has it.  The factory overload taking a PSF and a full
    basis ends with the logic error for every input: it constructs no
    builder, and so does not dispatch to the convolved multi-shapelet
    builder. *)
Theorem makeMatrixBuilder_multipsf_basis_not_implemented
    (x y : Vec (T:=T)) (psf : MultiShapeletFunction T)
    (basis : MultiShapeletBasis T) :
  makeMatrixBuilder_multipsf_basis x y psf basis = Err LogicError.
Proof. reflexivity. Qed.

(** C10.  For a PSF with exactly one element, the factory overload taking
    the multi-function PSF returns what the overload taking a single
    shapelet function returns for that element, with the same samples and
    order; the two builders therefore have the same basis size and give
    the same output matrix for every ellipse. *)
Theorem makeMatrixBuilder_multipsf_single
    (x y : Vec (T:=T)) (psf : MultiShapeletFunction T)
    (element : ShapeletFunction T) (order : nat) :
  getElements psf = [element] ->
  makeMatrixBuilder_multipsf x y psf order =
    makeMatrixBuilder_psf x y element order /\
  forall b1 b2,
    makeMatrixBuilder_multipsf x y psf order = Ok b1 ->
    makeMatrixBuilder_psf x y element order = Ok b2 ->
    getBasisSize (base b1) = getBasisSize (base b2) /\
    forall output ellipse,
      snd (apply b1 output ellipse) = snd (apply b2 output ellipse).
Proof.
  intros He.
  assert (Heq : makeMatrixBuilder_multipsf x y psf order =
                makeMatrixBuilder_psf x y element order).
  { unfold makeMatrixBuilder_multipsf. now rewrite He. }
  split; [exact Heq|].
  intros b1 b2 H1 H2. rewrite Heq, H2 in H1.
  injection H1 as <-. split; reflexivity.
Qed.
End ConstructionFacts.

(** C1, as the spec states it, fails: for a two-element PSF and a
    two-component basis the factory returns no convolved multi-shapelet
    builder. *)
Lemma makeMatrixBuilder_multipsf_basis_counterexample :
  ~ exists b,
      makeMatrixBuilder_multipsf_basis Sample.xs Sample.ys Sample.multiPsf2
        Sample.basis2 = Ok (BConvolvedMultiShapelet b).
Proof. intros [b Hb]. discriminate Hb. Qed.

(** Arrays of 5 and 4 samples, and arrays of 2 and 2 samples. *)
Lemma construct_length_check_witness :
  construct (NewShapelet 2) Sample.xs5 Sample.ys4 = Err LengthError /\
  exists b, construct (NewShapelet 2) Sample.xs Sample.ys = Ok b.
Proof.
  split.
  - apply (proj1 (construct_length_check (NewShapelet 2) Sample.xs5 Sample.ys4)).
    simpl; lia.
  - apply (proj2 (construct_length_check (NewShapelet 2) Sample.xs Sample.ys)).
    reflexivity.
Defined.

(** A PSF of two elements with order 3. *)
Lemma makeMatrixBuilder_multipsf_rejects_witness :
  makeMatrixBuilder_multipsf Sample.xs Sample.ys Sample.multiPsf2 3 =
  Err LogicError.
Proof.
  apply (makeMatrixBuilder_multipsf_rejects Sample.xs Sample.ys Sample.multiPsf2 3).
  simpl; lia.
Defined.

(** A PSF of one element with order 2. *)
Lemma makeMatrixBuilder_multipsf_single_witness :
  makeMatrixBuilder_multipsf Sample.xs Sample.ys Sample.multiPsf1 2 =
  makeMatrixBuilder_psf Sample.xs Sample.ys Sample.psf0 2.
Proof.
  apply (proj1 (makeMatrixBuilder_multipsf_single Sample.xs Sample.ys
                  Sample.multiPsf1 Sample.psf0 2 eq_refl)).
Defined.

(** ** Workspace extents *)

Lemma computeSize_double (n : nat) : 2 * computeSize n = (n + 1) * (n + 2).
Proof.
  unfold computeSize.
  assert (He : Nat.even ((n + 1) * (n + 2)) = true).
  { rewrite Nat.even_mul, !Nat.even_add. simpl.
    destruct (Nat.even n); reflexivity. }
  apply Nat.even_spec in He. destruct He as [k Hk]. rewrite Hk.
  replace (2 * k / 2) with k; [reflexivity|].
  symmetry. rewrite (Nat.mul_comm 2 k). apply Nat.div_mul. lia.
Qed.

Lemma computeSize_succ (n : nat) : computeSize (S n) = computeSize n + (n + 2).
Proof.
  pose proof (computeSize_double n). pose proof (computeSize_double (S n)). nia.
Qed.

Lemma computeSize_gt (n : nat) : n < computeSize n.
Proof. pose proof (computeSize_double n). nia. Qed.

Lemma computeSize_mono (n m : nat) : n <= m -> computeSize n <= computeSize m.
Proof.
  intros Hnm. pose proof (computeSize_double n). pose proof (computeSize_double m).
  nia.
Qed.

Section ExtentFacts.
Context {T : Type} {S : Scalar T} {G : Geometry T} {C : Convolution T}.

Lemma fold_max_ge {A : Type} (f : A -> nat) (l : list A) (init : nat) :
  init <= fold_left (fun m c => Nat.max m (f c)) l init /\
  forall c, In c l -> f c <= fold_left (fun m c => Nat.max m (f c)) l init.
Proof.
  revert init; induction l as [|a l IH]; intros init; simpl.
  - split; [lia | intros c []].
  - destruct (IH (Nat.max init (f a))) as [Hi Hc]. split; [lia|].
    intros c [->|Hin]; [lia | now apply Hc].
Qed.

Lemma fold_max_attained {A : Type} (f : A -> nat) (l : list A) (init : nat) :
  fold_left (fun m c => Nat.max m (f c)) l init = init \/
  exists c, In c l /\ fold_left (fun m c => Nat.max m (f c)) l init = f c.
Proof.
  revert init; induction l as [|a l IH]; intros init; simpl; [now left|].
  destruct (IH (Nat.max init (f a))) as [He | [c [Hin He]]].
  - destruct (Nat.max_spec init (f a)) as [[_ Hm] | [_ Hm]].
    + right. exists a. split; [now left | now rewrite He].
    + left. now rewrite He.
  - right. exists c. split; [now right | exact He].
Qed.

(** X14.  In the multi-shapelet builder every view taken by [apply], of
    [computeSize(order)] columns for a component, lies within the workspace
    of the constructor. *)
Lemma MultiShapelet_views_within_workspace
    (x y : Vec (T:=T)) (basis : MultiShapeletBasis T) b :
  MultiShapeletMatrixBuilder0_new x y basis = Ok b ->
  forall c, In c (getComponents basis) ->
    computeSize (comp_getOrder c) <= length (m_basisWorkspace b).
Proof.
  unfold MultiShapeletMatrixBuilder0_new, MatrixBuilder_new, bind.
  destruct (length x =? length y); [|discriminate].
  intros Hb c Hin. injection Hb as <-. simpl.
  unfold allocate. rewrite repeat_length.
  apply computeSize_mono. unfold _computeMaxOrder.
  now apply (fold_max_ge comp_getOrder).
Qed.

(** X15.  In the convolved multi-shapelet builder the workspace has
    [maxRowOrder] columns, and whenever there is a component the view of the
    component of greatest row order is wider than that. *)
Lemma ConvolvedMultiShapelet_view_exceeds_workspace
    (x y : Vec (T:=T)) (psf : MultiShapeletFunction T)
    (basis : MultiShapeletBasis T) b :
  ConvolvedMultiShapeletMatrixBuilder_new x y psf basis = Ok b ->
  _components b <> [] ->
  exists c, In c (_components b) /\
            length (cm_basisWorkspace b) < getRowSize c.
Proof.
  unfold ConvolvedMultiShapeletMatrixBuilder_new, MatrixBuilder_new, bind.
  destruct (length x =? length y); [|discriminate].
  intros Hb Hne. injection Hb as <-. simpl in *.
  unfold allocate. rewrite repeat_length. unfold maxRowOrder.
  destruct (makeComponents psf basis) as [|c0 cs] eqn:E; [congruence|].
  destruct (fold_max_attained (fun c => getRowOrder (convolution c))
              (c0 :: cs) 0) as [He | [c [Hin He]]].
  - exists c0. split; [now left|]. rewrite He. unfold getRowSize.
    pose proof (computeSize_gt (getRowOrder (convolution c0))). lia.
  - exists c. split; [exact Hin|]. rewrite He. apply computeSize_gt.
Qed.
End ExtentFacts.

(** C9 on the code.  The convolved multi-shapelet builder made from two
    samples, the PSF of one Gaussian element and the basis with components of
    orders 0 and 1 has a basis workspace of one column, while [apply] takes
    from it a view of three columns for its second component. *)
Lemma ConvolvedMultiShapelet_view_outside_workspace :
  exists b c,
    ConvolvedMultiShapeletMatrixBuilder_new Sample.xs Sample.ys
      Sample.multiPsf1 Sample.basis2 = Ok b /\
    nth_error (_components b) 1 = Some c /\
    length (cm_basisWorkspace b) = 1 /\
    getRowSize c = 3.
Proof.
  eexists. eexists. split; [reflexivity|]. split; [reflexivity|].
  split; reflexivity.
Qed.

(** C2 on the code.  The convolved shapelet builder made from two samples,
    the Gaussian PSF and order 1 has row order 1 and a workspace of one
    column.  The basis at the row order has three functions: the loop of
    the helper passes the packed indices at the positions 1 and 2, whose
    order is within the order of the helper, and accumulates into
    [output.col(1)] and [output.col(2)], columns the workspace does not
    have.  For every ellipse the matrix of the convolution has three rows,
    so that the product [workspace * matrix] is taken between one column
    and three rows.  The workspace cannot hold the basis at the row order,
    and the product that is to be the output is not defined. *)
Lemma ConvolvedShapelet_apply_outside_workspace :
  exists b,
    ConvolvedShapeletMatrixBuilder_new Sample.xs Sample.ys Sample.psf0 1 =
      Ok b /\
    getRowOrder (_convolution b) = 1 /\
    length (cs_convolutionWorkspace b) = 1 /\
    Forall (fun k => getOrder (packedAt k) <= _order (cs_shapeletHelper b) /\
                     getIndex (packedAt k) = k /\
                     length (cs_convolutionWorkspace b) <= k) [1; 2] /\
    forall ellipse : R,
      snd (evaluate (_convolution b) ellipse) <> [] /\
      Forall (fun column => length column = 3)
        (snd (evaluate (_convolution b) ellipse)).
Proof.
  eexists. split; [reflexivity|]. split; [reflexivity|]. split; [reflexivity|].
  split.
  - repeat constructor.
  - intros ellipse. split; [discriminate|]. repeat constructor.
Qed.


(** ** The packed enumeration *)







(** The loop test [i.getOrder() <= order] holds exactly of the indices
    before position [computeSize order]. *)
Lemma packedInv_order_index (i : PackedIndex) (order : nat) :
  packedInv i -> (getOrder i <= order <-> getIndex i < computeSize order).
Proof.
  intros [Hxy Hidx]. split.
  - intros Hle. pose proof (computeSize_mono _ _ Hle). lia.
  - intros Hlt. destruct (Nat.le_gt_cases (getOrder i) order) as [|Hgt]; [assumption|].
    exfalso. destruct (getOrder i) as [|n] eqn:En; [lia|].
    rewrite computeSize_succ in Hidx.
    assert (Hm : computeSize order <= computeSize n) by (apply computeSize_mono; lia).
    lia.
Qed.



Section PackedLoopFacts.
Context {T : Type} `{Scalar T}.


(** More iterations than [computeSize order] change nothing: the test ends
    the loop. *)
Lemma packedLoop_stops order (expW : Vec (T:=T)) xW yW fuel i view :
  packedInv i -> computeSize order <= getIndex i ->
  packedLoop order expW xW yW fuel i view = view.
Proof.
  intros Hinv Hge. destruct fuel as [|fuel]; [reflexivity|]. simpl.
  destruct (getOrder i <=? order) eqn:E; [|reflexivity].
  apply Nat.leb_le in E. apply (packedInv_order_index i order Hinv) in E. lia.
Qed.






End PackedLoopFacts.

(** ** The shapelet evaluator on well-formed tables *)

Section HelperFacts.
Context {T : Type} `{Scalar T} `{Geometry T}.

Lemma vconst_ext (c : T) (a b : Vec (T:=T)) :
  length a = length b -> vconst c a = vconst c b.
Proof.
  revert b; induction a as [|x a IH]; intros [|y b]; simpl; intros Hl;
    try discriminate; auto.
  f_equal. apply IH. lia.
Qed.

(** The lines up to the order do not depend on what the table held. *)
Lemma fill_agree n (m1 m2 : Mat (T:=T)) coord samples :
  tableFor n samples m1 -> tableFor n samples m2 ->
  forall j, j <= n ->
    col j (_fillHermite1d n m1 coord) = col j (_fillHermite1d n m2 coord).
Proof.
  intros [Hn1 Hl1] [Hn2 Hl2] j.
  induction j as [j IH] using lt_wf_ind. intros Hj.
  destruct j as [|[|j]].
  - rewrite !fill_col0 by lia. apply vconst_ext.
    rewrite Hl1, Hl2 by lia. reflexivity.
  - rewrite !fill_col1 by lia. now rewrite (IH 0) by lia.
  - rewrite (fill_colj n m1 coord (S (S j))), (fill_colj n m2 coord (S (S j)))
      by lia.
    now rewrite (IH (S (S j) - 1)), (IH (S (S j) - 2)) by lia.
Qed.

Lemma readEllipse_length (x y : Vec (T:=T)) e :
  length (xt (readEllipse x y e)) = Nat.min (length x) (length y) /\
  length (yt (readEllipse x y e)) = Nat.min (length x) (length y).
Proof.
  unfold readEllipse, vadd_scalar, vscale; simpl.
  now rewrite !length_map, !zipWith_length, !length_map.
Qed.




End HelperFacts.

(** ** Shapes of workspaces *)

Section ShapeFacts.
Context {T : Type} `{Scalar T} `{Geometry T}.

Lemma vconst_repeat (c : T) (a : Vec (T:=T)) : vconst c a = repeat c (length a).
Proof. induction a as [|x a IH]; simpl; [reflexivity | now rewrite <- IH]. Qed.

(** A zeroed matrix with one value per sample in each column is the freshly
    allocated matrix of its width. *)
Lemma mzero_colsOf samples (m : Mat (T:=T)) :
  colsOf samples m -> mzero m = allocate samples (length m).
Proof.
  unfold colsOf, mzero, allocate, vzero.
  induction 1 as [|c m Hc Hm IH]; simpl; [reflexivity|].
  now rewrite vconst_repeat, Hc, IH.
Qed.

Lemma allocate_colsOf samples cols : colsOf samples (allocate (T:=T) samples cols).
Proof.
  unfold colsOf, allocate. apply Forall_forall. intros c Hc.
  apply repeat_spec in Hc. subst c. apply repeat_length.
Qed.

Lemma colsOf_col samples (m : Mat (T:=T)) j :
  colsOf samples m -> j < length m -> length (col j m) = samples.
Proof.
  unfold colsOf, col. intros Hm Hj. rewrite Forall_forall in Hm.
  apply Hm. now apply nth_In.
Qed.

Lemma setCol_colsOf samples j (v : Vec (T:=T)) m :
  colsOf samples m -> length v = samples -> colsOf samples (setCol j v m).
Proof.
  unfold colsOf. intros Hm Hv. revert j; induction Hm as [|c m Hc Hm IH];
    intros [|j]; simpl; constructor; auto.
Qed.









End ShapeFacts.

(** ** The helper on views *)

Section HelperViewFacts.
Context {T : Type} `{Scalar T} `{Geometry T}.







End HelperViewFacts.

(** ** The loops of the multi-shapelet builders *)

Section LoopFacts.
Context {T : Type} {S : Scalar T} {G : Geometry T} {C : Convolution T}.


End LoopFacts.

(** ** The builders *)

Section BuilderFacts.
Context {T : Type} {S : Scalar T} {G : Geometry T} {C : Convolution T}.

Lemma readEllipse_samples (base : MatrixBuilder T) ellipse :
  samplesWf base ->
  length (xt (readEllipse (_xy0 base) (_xy1 base) ellipse)) = getDataSize base /\
  length (yt (readEllipse (_xy0 base) (_xy1 base) ellipse)) = getDataSize base.
Proof.
  unfold samplesWf, getDataSize. intros Hs.
  destruct (readEllipse_length (_xy0 base) (_xy1 base) ellipse) as [Hx Hy].
  rewrite Hx, Hy. lia.
Qed.

Lemma mzero_length (m : Mat (T:=T)) : length (mzero m) = length m.
Proof. unfold mzero. apply length_map. Qed.

Lemma mzero_is_colsOf samples (m : Mat (T:=T)) :
  colsOf samples m -> colsOf samples (mzero m).
Proof.
  intros Hm. rewrite (mzero_colsOf samples m Hm). apply allocate_colsOf.
Qed.

(** The virtual call, by the class of the builder. *)
Lemma apply_eq (b : Builder) (output : Mat (T:=T)) ellipse :
  apply b output ellipse =
  match b with
  | BGaussian b =>
      (BGaussian (fst (GaussianMatrixBuilder_apply b output ellipse)),
       snd (GaussianMatrixBuilder_apply b output ellipse))
  | BConvolvedGaussian b =>
      (BConvolvedGaussian (fst (ConvolvedGaussianMatrixBuilder_apply b output ellipse)),
       snd (ConvolvedGaussianMatrixBuilder_apply b output ellipse))
  | BShapelet b =>
      (BShapelet (fst (ShapeletMatrixBuilder_apply b output ellipse)),
       snd (ShapeletMatrixBuilder_apply b output ellipse))
  | BConvolvedShapelet b =>
      (BConvolvedShapelet (fst (ConvolvedShapeletMatrixBuilder_apply b output ellipse)),
       snd (ConvolvedShapeletMatrixBuilder_apply b output ellipse))
  | BMultiShapelet b =>
      (BMultiShapelet (fst (MultiShapeletMatrixBuilder0_apply b output ellipse)),
       snd (MultiShapeletMatrixBuilder0_apply b output ellipse))
  | BConvolvedMultiShapelet b =>
      (BConvolvedMultiShapelet
         (fst (ConvolvedMultiShapeletMatrixBuilder_apply b output ellipse)),
       snd (ConvolvedMultiShapeletMatrixBuilder_apply b output ellipse))
  end.
Proof.
  destruct b as [b|b|b|b|b|b]; unfold apply.
  - now destruct (GaussianMatrixBuilder_apply b output ellipse).
  - now destruct (ConvolvedGaussianMatrixBuilder_apply b output ellipse).
  - now destruct (ShapeletMatrixBuilder_apply b output ellipse).
  - now destruct (ConvolvedShapeletMatrixBuilder_apply b output ellipse).
  - now destruct (MultiShapeletMatrixBuilder0_apply b output ellipse).
  - now destruct (ConvolvedMultiShapeletMatrixBuilder_apply b output ellipse).
Qed.

End BuilderFacts.

(** ** Helpers of different orders on the same view *)

Section OrderFacts.
Context {T : Type} `{Scalar T} `{Geometry T}.




End OrderFacts.

(** ** The multi-shapelet builder in exact arithmetic *)

Section MultiShapeletReal.
Context {G : Geometry R} {C : Convolution R}.

Lemma Q2R_one : Q2R 1 = 1%R.
Proof. unfold Q2R; simpl. lra. Qed.


(** Rescaling to the first radius and from it to the second is rescaling to
    the second radius. *)
Lemma rescale_relative (v r1 r2 : R) :
  r1 <> 0%R ->
  (v / (r1 / Q2R 1) / (r2 / r1))%R = (v / (r2 / Q2R 1))%R.
Proof.
  intros Hr1. rewrite Q2R_one. unfold Rdiv.
  rewrite !Rinv_mult, !Rinv_inv.
  transitivity (v * / r2 * (r1 * / r1))%R; [ring|].
  rewrite Rinv_r by assumption. ring.
Qed.

Lemma scale_relative (eh : EllipseHelper R) (r1 r2 : R) :
  r1 <> 0%R ->
  scale (scale eh (r1 / lit 1)%S) (r2 / r1)%S = scale eh (r2 / lit 1)%S.
Proof.
  intros Hr1. unfold scale, vdiv_r; simpl. f_equal.
  - rewrite map_map. apply map_ext. intros v. now apply rescale_relative.
  - rewrite map_map. apply map_ext. intros v. now apply rescale_relative.
Qed.





End MultiShapeletReal.


(** ** The multi-shapelet builder in binary64 *)



(** * Further properties of the evaluators and builders *)

(** ** The shapelet evaluator *)

Section EvaluatorProperties.
Context {T : Type} `{Scalar T} `{Geometry T}.


(** X2.  [_fillHermite1d] overwrites: on two tables with a line for each of
    the degrees 0..n and one value per sample, the lines of degrees 0..n it
    leaves are the same, whatever the tables held before. *)
Theorem fillHermite1d_overwrites
    (n : nat) (t1 t2 : Mat (T:=T)) (coord : Vec (T:=T)) (samples j : nat) :
  tableFor n samples t1 -> tableFor n samples t2 -> j <= n ->
  col j (_fillHermite1d n t1 coord) = col j (_fillHermite1d n t2 coord).
Proof. intros H1 H2 Hj. now apply fill_agree with (samples := samples). Qed.
End EvaluatorProperties.


(** Two tables for order 1 over two samples with different contents. *)
Lemma fillHermite1d_overwrites_witness :
  col 1 (_fillHermite1d 1 [[1%R; 2%R]; [3%R; 4%R]] [5%R; 6%R]) =
  col 1 (_fillHermite1d 1 [[0%R; 0%R]; [7%R; 8%R]] [5%R; 6%R]).
Proof.
  refine (fillHermite1d_overwrites 1 [[1%R; 2%R]; [3%R; 4%R]]
            [[0%R; 0%R]; [7%R; 8%R]] [5%R; 6%R] 2 1 _ _ _);
    try (split; [simpl; lia | intros [|[|j]] Hj; simpl in *; try reflexivity; lia]).
  lia.
Defined.

(** ** The Gaussian builders *)

Section GaussianBuilderProperties.
Context {T : Type} {S : Scalar T} {G : Geometry T} {C : Convolution T}.

Lemma readEllipse_nth (x y : Vec (T:=T)) ellipse i d :
  i < length x -> i < length y ->
  let t := getGridTransform ellipse in
  nth i (xt (readEllipse x y ellipse)) d =
    (XX t * nth i x d + XY t * nth i y d + X t)%S /\
  nth i (yt (readEllipse x y ellipse)) d =
    (YX t * nth i x d + YY t * nth i y d + Y t)%S.
Proof.
  intros Hx Hy. unfold readEllipse, vadd_scalar, vscale; simpl. split.
  - rewrite map_nth_lt by (rewrite zipWith_length, !length_map; lia).
    rewrite zipWith_nth by (rewrite length_map; lia).
    now rewrite !map_nth_lt by lia.
  - rewrite map_nth_lt by (rewrite zipWith_length, !length_map; lia).
    rewrite zipWith_nth by (rewrite length_map; lia).
    now rewrite !map_nth_lt by lia.
Qed.

Lemma col_mzero j (m : Mat (T:=T)) : col j (mzero m) = vconst (lit 0) (col j m).
Proof.
  unfold col, mzero.
  change (@nil T) with (vconst (lit 0) (@nil T)) at 1. apply map_nth.
Qed.

Lemma GaussianHelper_apply_entry (eh : EllipseHelper T) (output : Vec (T:=T)) i d :
  i < length output -> i < length (xt eh) -> i < length (yt eh) ->
  nth i (GaussianHelper_apply eh output) d =
  (nth i output d + nth i (gaussianEnvelope eh) d * detFactor eh * NORM)%S.
Proof.
  intros Ho Hx Hy. unfold GaussianHelper_apply, vscale_r.
  rewrite zipWith_nth; [| assumption
                        | rewrite !length_map, gaussianEnvelope_length; lia].
  f_equal.
  rewrite map_nth_lt by (rewrite length_map, gaussianEnvelope_length; lia).
  now rewrite map_nth_lt by (rewrite gaussianEnvelope_length; lia).
Qed.

(** X3.  The Gaussian builder overwrites its output: whatever the matrix
    held, entry i of column 0 becomes
    [0 + exp(-0.5*(x'^2 + y'^2)) * det * (1/sqrt(pi))], where (x', y') is the
    image of sample i under the grid transform of the ellipse and det the
    determinant of its linear part, and every other column becomes zero. *)
Theorem GaussianMatrixBuilder_apply_entries
    (b : GaussianMatrixBuilder T) (output : Mat (T:=T)) (ellipse : Ellipse)
    (i : nat) (d : T) :
  i < length (_xy0 (g_base b)) -> i < length (_xy1 (g_base b)) ->
  i < length (col 0 output) ->
  let t := getGridTransform ellipse in
  let x' := (XX t * nth i (_xy0 (g_base b)) d
             + XY t * nth i (_xy1 (g_base b)) d + X t)%S in
  let y' := (YX t * nth i (_xy0 (g_base b)) d
             + YY t * nth i (_xy1 (g_base b)) d + Y t)%S in
  nth i (col 0 (snd (apply (BGaussian b) output ellipse))) d =
    (lit 0 + sexp (lit (-1 # 2) * (x' * x' + y' * y'))
             * computeDeterminant t * (lit 1 / ssqrt M_PI))%S /\
  forall j, 0 < j ->
    col j (snd (apply (BGaussian b) output ellipse)) = vconst (lit 0) (col j output).
Proof.
  intros Hx Hy Ho. cbv zeta. rewrite apply_eq. cbn [snd].
  unfold GaussianMatrixBuilder_apply. cbn [snd].
  assert (Hlen : 0 < length output).
  { destruct output as [|c output]; [simpl in Ho; lia | simpl; lia]. }
  destruct (readEllipse_length (_xy0 (g_base b)) (_xy1 (g_base b)) ellipse)
    as [Hlx Hly].
  destruct (readEllipse_nth (_xy0 (g_base b)) (_xy1 (g_base b)) ellipse i d Hx Hy)
    as [Hnx Hny]. cbv zeta in Hnx, Hny.
  split.
  - rewrite col_setCol_eq by now rewrite mzero_length.
    rewrite GaussianHelper_apply_entry;
      [| rewrite col_mzero; unfold vconst; now rewrite length_map
       | rewrite Hlx; lia | rewrite Hly; lia].
    rewrite col_mzero. unfold vconst at 1. rewrite map_nth_lt by assumption.
    rewrite gaussianEnvelope_nth by (rewrite ?Hlx, ?Hly; lia).
    rewrite Hnx, Hny. reflexivity.
  - intros j Hj. rewrite col_setCol_neq by lia. apply col_mzero.
Qed.

(** X4.  With an order-0 request and an order-0 PSF, the builder the factory
    returns gives, at every ellipse, the output of the plain Gaussian
    builder over the same samples at the ellipse convolved with the PSF
    ellipse, multiplied by the first PSF coefficient over [FLUX_FACTOR]. *)
Theorem ConvolvedGaussian_is_scaled_Gaussian
    (x y : Vec (T:=T)) (psf : ShapeletFunction T) (bc bg : Builder)
    (output : Mat (T:=T)) (ellipse : Ellipse) :
  sf_getOrder psf = 0 ->
  makeMatrixBuilder_psf x y psf 0 = Ok bc ->
  makeMatrixBuilder_order x y 0 = Ok bg ->
  snd (apply bc output ellipse) =
  mscale (snd (apply bg output (convolve ellipse (sf_getEllipse psf))))
    (nth 0 (sf_getCoefficients psf) (lit 0) / FLUX_FACTOR)%S.
Proof.
  intros Hpsf. unfold makeMatrixBuilder_psf, makeMatrixBuilder_order.
  rewrite Hpsf. simpl.
  unfold rmap, ConvolvedGaussianMatrixBuilder_new, GaussianMatrixBuilder_new,
    MatrixBuilder_new, bind.
  destruct (length x =? length y); [|discriminate].
  intros Hc Hg. injection Hc as <-. injection Hg as <-.
  rewrite !apply_eq. reflexivity.
Qed.

(** X5.  The Gaussian and the convolved Gaussian builder keep the shape of
    the matrix they fill: with as many x as y samples, an output that has a
    column 0 and one entry per sample in every column comes back with the
    same number of columns, each with one entry per sample. *)
Theorem apply_keeps_output_shape
    (b : Builder) (output : Mat (T:=T)) (ellipse : Ellipse) :
  match b with
  | BGaussian _ | BConvolvedGaussian _ => True
  | _ => False
  end ->
  samplesWf (base b) ->
  output <> [] ->
  colsOf (getDataSize (base b)) output ->
  colsOf (getDataSize (base b)) (snd (apply b output ellipse)) /\
  length (snd (apply b output ellipse)) = length output.
Proof.
  intros Hv Hwf _ Ho. rewrite apply_eq.
  destruct b as [b|b|b|b|b|b]; try contradiction; cbn [snd base] in *.
  - unfold GaussianMatrixBuilder_apply; cbn [snd].
    destruct (readEllipse_samples (g_base b) ellipse Hwf) as [Hx Hy].
    split; [|now rewrite setCol_length, mzero_length].
    destruct output as [|c output]; [constructor|].
    apply setCol_colsOf; [now apply mzero_is_colsOf|].
    unfold GaussianHelper_apply, vscale_r.
    rewrite zipWith_length, !length_map, gaussianEnvelope_length, Hx, Hy.
    rewrite col_mzero. unfold vconst. rewrite length_map.
    rewrite (colsOf_col _ _ 0 Ho) by (simpl; lia). lia.
  - unfold ConvolvedGaussianMatrixBuilder_apply; cbn [snd].
    destruct (readEllipse_samples (cg_base b)
                (convolve ellipse (_psfEllipse b)) Hwf) as [Hx Hy].
    unfold mscale. split;
      [|now rewrite length_map, setCol_length, mzero_length].
    unfold colsOf. apply Forall_map.
    assert (Hs : colsOf (getDataSize (cg_base b))
                   (setCol 0
                      (GaussianHelper_apply
                         (readEllipse (_xy0 (cg_base b)) (_xy1 (cg_base b))
                            (convolve ellipse (_psfEllipse b)))
                         (col 0 (mzero output))) (mzero output))).
    { destruct output as [|c output]; [constructor|].
      apply setCol_colsOf; [now apply mzero_is_colsOf|].
      unfold GaussianHelper_apply, vscale_r.
      rewrite zipWith_length, !length_map, gaussianEnvelope_length, Hx, Hy.
      rewrite col_mzero. unfold vconst. rewrite length_map.
      rewrite (colsOf_col _ _ 0 Ho) by (simpl; lia). lia. }
    eapply Forall_impl; [|exact Hs]. intros c Hc. simpl in Hc.
    unfold vscale_r. now rewrite length_map.
Qed.
End GaussianBuilderProperties.

(** The Gaussian builder over two samples, on a matrix holding sevens, for
    the circle of radius 2: entry 1 of column 0. *)
Lemma GaussianMatrixBuilder_apply_entries_witness :
  let b := mkGaussian (mkMatrixBuilder 1 Sample.xs Sample.ys) (EllipseHelper_new 2) in
  let t := getGridTransform 2%R in
  let x' := (XX t * nth 1 Sample.xs 0%R + XY t * nth 1 Sample.ys 0%R + X t)%S in
  let y' := (YX t * nth 1 Sample.xs 0%R + YY t * nth 1 Sample.ys 0%R + Y t)%S in
  nth 1 (col 0 (snd (apply (BGaussian b) [[7%R; 7%R]] 2%R))) 0%R =
  (lit 0 + sexp (lit (-1 # 2) * (x' * x' + y' * y'))
           * computeDeterminant t * (lit 1 / ssqrt M_PI))%S.
Proof.
  refine (proj1 (GaussianMatrixBuilder_apply_entries
                   (mkGaussian (mkMatrixBuilder 1 Sample.xs Sample.ys)
                      (EllipseHelper_new 2))
                   [[7%R; 7%R]] 2%R 1 0%R _ _ _)); simpl; lia.
Defined.

(** The Gaussian PSF of radius 1 with coefficient 1, over two samples. *)
Lemma ConvolvedGaussian_is_scaled_Gaussian_witness :
  snd (apply (BConvolvedGaussian
                (mkConvolvedGaussian (mkMatrixBuilder 1 Sample.xs Sample.ys)
                   (EllipseHelper_new 2) 1%R 1%R))
         Sample.output1 3%R) =
  mscale (snd (apply (BGaussian
                        (mkGaussian (mkMatrixBuilder 1 Sample.xs Sample.ys)
                           (EllipseHelper_new 2)))
                 Sample.output1 (convolve 3%R (sf_getEllipse Sample.psf0))))
    (nth 0 (sf_getCoefficients Sample.psf0) (lit 0) / FLUX_FACTOR)%S.
Proof.
  refine (ConvolvedGaussian_is_scaled_Gaussian Sample.xs Sample.ys Sample.psf0
            _ _ Sample.output1 3%R eq_refl eq_refl eq_refl).
Defined.

(** The convolved Gaussian builder over two samples on a matrix of one
    column. *)
Lemma apply_keeps_output_shape_witness :
  length (snd (apply (BConvolvedGaussian
                        (mkConvolvedGaussian
                           (mkMatrixBuilder 1 Sample.xs Sample.ys)
                           (EllipseHelper_new 2) 1%R 1%R))
                 Sample.output1 3%R)) =
  length Sample.output1.
Proof.
  refine (proj2 (apply_keeps_output_shape
                   (BConvolvedGaussian
                      (mkConvolvedGaussian
                         (mkMatrixBuilder 1 Sample.xs Sample.ys)
                         (EllipseHelper_new 2) 1%R 1%R))
                   Sample.output1 3%R I _ _ _)).
  - reflexivity.
  - discriminate.
  - repeat constructor.
Defined.

(** ** The loop of the multi-shapelet builder, in exact arithmetic *)

Section MultiLoopReal.
Context {G : Geometry R} {C : Convolution R}.

(** X6.  In exact arithmetic [EllipseHelper::scale] composes
    multiplicatively: scaling by a factor and then by another is scaling by
    their product, and the determinant factor is not touched. *)
Theorem scale_composes (eh : EllipseHelper R) (a b : R) :
  scale (scale eh a) b = scale eh (a * b)%R /\
  detFactor (scale eh a) = detFactor eh.
Proof.
  split; [|reflexivity]. unfold scale, vdiv_r; simpl. f_equal.
  - rewrite map_map. apply map_ext. intros v. unfold Rdiv.
    rewrite Rinv_mult. ring.
  - rewrite map_map. apply map_ext. intros v. unfold Rdiv.
    rewrite Rinv_mult. ring.
Qed.

Lemma scale_one (eh : EllipseHelper R) : scale eh (lit 1 / lit 1)%S = eh.
Proof.
  destruct eh as [det x y]. unfold scale, vdiv_r; simpl.
  assert (Hid : forall v : R, (v / (Q2R 1 / Q2R 1))%R = v).
  { intros v. rewrite Q2R_one. field. }
  f_equal; (erewrite map_ext; [apply map_id | exact Hid]).
Qed.

(** A step of the loop, when the coordinates are those of the ellipse
    divided by the last radius, is the step that divides them by the radius
    of the component. *)
Lemma multiStep_absolute rows (eh0 : EllipseHelper R) (st : MultiState R)
    (c : MultiShapeletBasisComponent R) :
  ms_ellipseHelper st = scale eh0 (ms_lastRadius st / lit 1)%S ->
  ms_lastRadius st <> 0%R ->
  multiStep rows st c = multiStepAbsolute rows eh0 st c.
Proof.
  intros He Hr. unfold multiStep, multiStepAbsolute.
  now rewrite He, (scale_relative eh0 (ms_lastRadius st) (getRadius c) Hr).
Qed.

Lemma multiLoop_absolute rows (eh0 : EllipseHelper R) components (st : MultiState R) :
  ms_ellipseHelper st = scale eh0 (ms_lastRadius st / lit 1)%S ->
  ms_lastRadius st <> 0%R ->
  Forall (fun c => getRadius c <> 0%R) components ->
  fold_left (multiStep rows) components st =
  fold_left (multiStepAbsolute rows eh0) components st.
Proof.
  intros He Hr Hnz. revert st He Hr.
  induction Hnz as [|c cs Hc Hcs IH]; intros st He Hr; [reflexivity|].
  simpl. rewrite (multiStep_absolute rows eh0 st c He Hr).
  apply IH.
  - unfold multiStepAbsolute.
    now destruct (ShapeletHelper_apply (ms_shapeletHelper st)
                    (scale eh0 (getRadius c / lit 1)%S)
                    (zeroCols (computeSize (comp_getOrder c))
                       (ms_basisWorkspace st))).
  - unfold multiStepAbsolute.
    now destruct (ShapeletHelper_apply (ms_shapeletHelper st)
                    (scale eh0 (getRadius c / lit 1)%S)
                    (zeroCols (computeSize (comp_getOrder c))
                       (ms_basisWorkspace st))).
Qed.

(** X7.  In exact arithmetic, for a basis of any number of components with
    radii different from zero, the multi-shapelet builder evaluates every
    component at the coordinates of the ellipse divided by the radius of
    that component: tracking the last radius and rescaling by the ratio
    gives what rescaling from the ellipse's own coordinates gives. *)
Theorem MultiShapelet_rescales_to_each_radius
    (b : MultiShapeletMatrixBuilder0 R) (output : Mat (T:=R)) (ellipse : Ellipse) :
  Forall (fun c => getRadius c <> 0%R) (getComponents (_basis b)) ->
  let eh0 := readEllipse (_xy0 (m_base b)) (_xy1 (m_base b)) ellipse in
  snd (apply (BMultiShapelet b) output ellipse) =
  ms_output
    (fold_left (multiStepAbsolute (getDataSize (m_base b)) eh0)
       (getComponents (_basis b))
       (mkMultiState eh0 (m_shapeletHelper b) (m_basisWorkspace b)
          (mzero output) (lit 1))).
Proof.
  intros Hnz. cbv zeta. rewrite apply_eq. cbn [snd].
  unfold MultiShapeletMatrixBuilder0_apply. cbn [snd].
  rewrite (multiLoop_absolute (getDataSize (m_base b))
             (readEllipse (_xy0 (m_base b)) (_xy1 (m_base b)) ellipse));
    [reflexivity | | | assumption].
  - cbn [ms_ellipseHelper ms_lastRadius]. symmetry. apply scale_one.
  - cbn [ms_lastRadius]. simpl. rewrite Q2R_one. lra.
Qed.
End MultiLoopReal.

(** The basis with components at radius 1 and radius 2. *)
Lemma MultiShapelet_rescales_to_each_radius_witness :
  let b := Sample.multiBuilder [Sample.component2; Sample.component1] 1 in
  let eh0 := readEllipse (_xy0 (m_base b)) (_xy1 (m_base b)) 3%R in
  snd (apply (BMultiShapelet b) Sample.output1 3%R) =
  ms_output
    (fold_left (multiStepAbsolute (getDataSize (m_base b)) eh0)
       (getComponents (_basis b))
       (mkMultiState eh0 (m_shapeletHelper b) (m_basisWorkspace b)
          (mzero Sample.output1) (lit 1))).
Proof.
  refine (MultiShapelet_rescales_to_each_radius
            (Sample.multiBuilder [Sample.component2; Sample.component1] 1)
            Sample.output1 3%R _).
  repeat constructor; simpl; lra.
Defined.

(** ** Components, extents and dispatch *)

Section ComponentProperties.
Context {T : Type} {S : Scalar T} {G : Geometry T} {C : Convolution T}.

Lemma makeComponents_nth (psf : MultiShapeletFunction T)
    (components : list (MultiShapeletBasisComponent T)) k l bc pe :
  nth_error components k = Some bc ->
  nth_error (getElements psf) l = Some pe ->
  nth_error
    (flat_map (fun b => map (Component_new b) (getElements psf)) components)
    (k * length (getElements psf) + l) = Some (Component_new bc pe).
Proof.
  revert k; induction components as [|c cs IH]; intros k Hk Hl.
  - destruct k; discriminate Hk.
  - assert (Hlt : l < length (getElements psf))
      by (apply nth_error_Some; congruence).
    destruct k as [|k]; simpl.
    + injection Hk as ->.
      rewrite nth_error_app1 by (rewrite length_map; lia).
      now rewrite nth_error_map, Hl.
    + rewrite nth_error_app2 by (rewrite length_map; lia).
      rewrite length_map.
      replace (length (getElements psf) + k * length (getElements psf) + l
               - length (getElements psf))
        with (k * length (getElements psf) + l) by lia.
      now apply IH.
Qed.

Lemma makeComponents_length (psf : MultiShapeletFunction T)
    (components : list (MultiShapeletBasisComponent T)) :
  length (flat_map (fun b => map (Component_new b) (getElements psf)) components)
  = length components * length (getElements psf).
Proof.
  induction components as [|c cs IH]; simpl; [reflexivity|].
  now rewrite length_app, length_map, IH.
Qed.

(** X8.  The convolved multi-shapelet builder holds one component for every
    pair of a basis component and a PSF element, as many as its constructor
    reserves, the pair of basis component k and PSF element l being at
    position [k * (number of PSF elements) + l]. *)
Theorem ConvolvedMultiShapelet_components
    (x y : Vec (T:=T)) (psf : MultiShapeletFunction T)
    (basis : MultiShapeletBasis T) (b : ConvolvedMultiShapeletMatrixBuilder T) :
  ConvolvedMultiShapeletMatrixBuilder_new x y psf basis = Ok b ->
  length (_components b) =
    length (getElements psf) * length (getComponents basis) /\
  forall k l bc pe,
    nth_error (getComponents basis) k = Some bc ->
    nth_error (getElements psf) l = Some pe ->
    nth_error (_components b) (k * length (getElements psf) + l) =
      Some (Component_new bc pe).
Proof.
  unfold ConvolvedMultiShapeletMatrixBuilder_new, MatrixBuilder_new, bind.
  destruct (length x =? length y); [|discriminate].
  intros Hb. injection Hb as <-. cbn [_components]. unfold makeComponents.
  split.
  - rewrite makeComponents_length. apply Nat.mul_comm.
  - intros k l bc pe. apply makeComponents_nth.
Qed.

(** X9.  With a basis without components the multi-shapelet builder returns
    the zeroed output, and so does the convolved multi-shapelet builder when
    the basis has no components or the PSF no elements. *)
Theorem empty_basis_gives_zero
    (x y : Vec (T:=T)) (psf : MultiShapeletFunction T)
    (basis : MultiShapeletBasis T) (output : Mat (T:=T)) (ellipse : Ellipse) :
  (getComponents basis = [] ->
   forall b, MultiShapeletMatrixBuilder0_new x y basis = Ok b ->
     snd (apply (BMultiShapelet b) output ellipse) = mzero output) /\
  (getComponents basis = [] \/ getElements psf = [] ->
   forall b, ConvolvedMultiShapeletMatrixBuilder_new x y psf basis = Ok b ->
     snd (apply (BConvolvedMultiShapelet b) output ellipse) = mzero output).
Proof.
  split.
  - intros He b. unfold MultiShapeletMatrixBuilder0_new, MatrixBuilder_new, bind.
    destruct (length x =? length y); [|discriminate].
    intros Hb. injection Hb as <-. rewrite apply_eq. cbn [snd].
    unfold MultiShapeletMatrixBuilder0_apply. cbn [snd _basis].
    now rewrite He.
  - intros He b.
    unfold ConvolvedMultiShapeletMatrixBuilder_new, MatrixBuilder_new, bind.
    destruct (length x =? length y); [|discriminate].
    intros Hb. injection Hb as <-. rewrite apply_eq. cbn [snd].
    unfold ConvolvedMultiShapeletMatrixBuilder_apply. cbn [snd _components].
    assert (Hnil : makeComponents psf basis = []).
    { apply length_zero_iff_nil. unfold makeComponents.
      rewrite makeComponents_length.
      destruct He as [He|He]; rewrite He; simpl; lia. }
    now rewrite Hnil.
Qed.

End ComponentProperties.

(** Two PSF elements and two basis components: four components. *)
Lemma ConvolvedMultiShapelet_components_witness :
  match ConvolvedMultiShapeletMatrixBuilder_new Sample.xs Sample.ys
          Sample.multiPsf2 Sample.basis2 with
  | Ok b => length (_components b) = 2 * 2
  | Err _ => False
  end.
Proof.
  refine (proj1 (ConvolvedMultiShapelet_components Sample.xs Sample.ys
                   Sample.multiPsf2 Sample.basis2 _ eq_refl)).
Defined.

(** A PSF without elements and the basis of two components. *)
Lemma empty_basis_gives_zero_witness :
  match ConvolvedMultiShapeletMatrixBuilder_new Sample.xs Sample.ys
          (mkMultiShapeletFunction []) Sample.basis2 with
  | Ok b =>
      snd (apply (BConvolvedMultiShapelet b) Sample.output1 3%R) =
      mzero Sample.output1
  | Err _ => False
  end.
Proof.
  refine (proj2 (empty_basis_gives_zero Sample.xs Sample.ys
                   (mkMultiShapeletFunction []) Sample.basis2
                   Sample.output1 3%R) (or_intror eq_refl) _ eq_refl).
Defined.


(** ** The factory *)

Section DispatchProperties.
Context {T : Type} {S : Scalar T} {G : Geometry T} {C : Convolution T}.

(** X12.  Without a PSF and with as many x as y samples, the factory returns
    the Gaussian builder, of basis size 1, for order 0; the shapelet builder
    of that order, of basis size [computeSize(order)], for any other order;
    and for a basis the multi-shapelet builder, of the size of the basis,
    whose helper and workspace are sized by the greatest order among the
    components. *)
Theorem makeMatrixBuilder_dispatch_without_psf (x y : Vec (T:=T)) :
  length x = length y ->
  (exists b, makeMatrixBuilder_order x y 0 = Ok (BGaussian b) /\
             getBasisSize (g_base b) = 1) /\
  (forall order, order <> 0 ->
     exists b, makeMatrixBuilder_order x y order = Ok (BShapelet b) /\
               getBasisSize (s_base b) = computeSize order /\
               _order (s_shapeletHelper b) = order) /\
  (forall basis,
     exists b, makeMatrixBuilder_basis x y basis = Ok (BMultiShapelet b) /\
               getBasisSize (m_base b) = getSize basis /\
               _order (m_shapeletHelper b) = _computeMaxOrder basis /\
               length (m_basisWorkspace b) = computeSize (_computeMaxOrder basis)).
Proof.
  intros He. apply Nat.eqb_eq in He.
  unfold makeMatrixBuilder_order, makeMatrixBuilder_basis, rmap,
    GaussianMatrixBuilder_new, ShapeletMatrixBuilder_new,
    MultiShapeletMatrixBuilder0_new, MatrixBuilder_new, bind.
  rewrite He. split; [|split].
  - simpl. eexists. split; reflexivity.
  - intros order Hne. apply Nat.eqb_neq in Hne. rewrite Hne.
    eexists. split; [reflexivity|]. split; reflexivity.
  - intros basis. eexists. split; [reflexivity|].
    split; [reflexivity|]. split; [reflexivity|].
    cbn [m_basisWorkspace]. unfold allocate. now rewrite repeat_length.
Qed.

(** X13.  With a single shapelet function as PSF and as many x as y
    samples, the factory returns the convolved Gaussian builder, holding the
    ellipse and the first coefficient of the PSF, only when the requested
    order and the order of the PSF are both 0; in every other case,
    including order 0 with a PSF of higher order, it returns the convolved
    shapelet builder, whose helper runs to the row order of the
    convolution. *)
Theorem makeMatrixBuilder_dispatch_with_psf
    (x y : Vec (T:=T)) (psf : ShapeletFunction T) (order : nat) :
  length x = length y ->
  (order = 0 /\ sf_getOrder psf = 0 ->
   exists b, makeMatrixBuilder_psf x y psf order = Ok (BConvolvedGaussian b) /\
             _psfEllipse b = sf_getEllipse psf /\
             _psfCoefficient b = nth 0 (sf_getCoefficients psf) (lit 0) /\
             getBasisSize (cg_base b) = 1) /\
  (order <> 0 \/ sf_getOrder psf <> 0 ->
   exists b, makeMatrixBuilder_psf x y psf order = Ok (BConvolvedShapelet b) /\
             getBasisSize (cs_base b) = computeSize order /\
             _order (cs_shapeletHelper b) =
               getRowOrder (GaussHermiteConvolution_new order psf)).
Proof.
  intros He. apply Nat.eqb_eq in He.
  unfold makeMatrixBuilder_psf, rmap, ConvolvedGaussianMatrixBuilder_new,
    ConvolvedShapeletMatrixBuilder_new, MatrixBuilder_new, bind.
  rewrite He. split.
  - intros [-> Hp]. rewrite Hp. simpl. eexists.
    split; [reflexivity|]. repeat split.
  - intros Hne.
    assert (Hb : (order =? 0) && (sf_getOrder psf =? 0) = false).
    { apply andb_false_iff.
      destruct Hne as [Hne|Hne]; [left|right]; now apply Nat.eqb_neq. }
    rewrite Hb. eexists. split; [reflexivity|]. split; reflexivity.
Qed.
End DispatchProperties.

(** Two samples: order 0, order 2 and the basis of two components. *)
Lemma makeMatrixBuilder_dispatch_without_psf_witness :
  exists b, makeMatrixBuilder_order Sample.xs Sample.ys 0 = Ok (BGaussian b) /\
            getBasisSize (g_base b) = 1.
Proof.
  refine (proj1 (makeMatrixBuilder_dispatch_without_psf Sample.xs Sample.ys _)).
  reflexivity.
Defined.

(** Order 0 with the first-order PSF: the convolved shapelet builder. *)
Lemma makeMatrixBuilder_dispatch_with_psf_witness :
  exists b, makeMatrixBuilder_psf Sample.xs Sample.ys Sample.psf1 0 =
              Ok (BConvolvedShapelet b) /\
            getBasisSize (cs_base b) = computeSize 0 /\
            _order (cs_shapeletHelper b) =
              getRowOrder (GaussHermiteConvolution_new 0 Sample.psf1).
Proof.
  refine (proj2 (makeMatrixBuilder_dispatch_with_psf Sample.xs Sample.ys
                   Sample.psf1 0 _) _).
  - reflexivity.
  - right. simpl. lia.
Defined.

(** The basis with components of order 0 and 1: the view of the second. *)
Lemma MultiShapelet_views_within_workspace_witness :
  match MultiShapeletMatrixBuilder0_new Sample.xs Sample.ys Sample.basis2 with
  | Ok b =>
      computeSize (comp_getOrder Sample.component1) <= length (m_basisWorkspace b)
  | Err _ => False
  end.
Proof.
  refine (MultiShapelet_views_within_workspace Sample.xs Sample.ys Sample.basis2
            _ eq_refl Sample.component1 _).
  simpl. auto.
Defined.

(** One PSF element and the basis with components of order 0 and 1. *)
Lemma ConvolvedMultiShapelet_view_exceeds_workspace_witness :
  match ConvolvedMultiShapeletMatrixBuilder_new Sample.xs Sample.ys
          Sample.multiPsf1 Sample.basis2 with
  | Ok b =>
      exists c, In c (_components b) /\
                length (cm_basisWorkspace b) < getRowSize c
  | Err _ => False
  end.
Proof.
  refine (ConvolvedMultiShapelet_view_exceeds_workspace Sample.xs Sample.ys
            Sample.multiPsf1 Sample.basis2 _ eq_refl _).
  simpl. discriminate.
Defined.

(** ** The layout of the helpers in the workspace *)

Lemma toInt_small (z : Z) : (- 2 ^ 31 <= z < 2 ^ 31)%Z -> toInt z = z.
Proof. intros Hz. unfold toInt. rewrite Z.mod_small; lia. Qed.

Lemma toSize_small (z : Z) : (0 <= z < 2 ^ 64)%Z -> toSize z = z.
Proof. intros Hz. unfold toSize. apply Z.mod_small. lia. Qed.

(** X16.  When the sizes are not negative and the byte count fits an [int],
    the constructors of the two helpers advance the workspace pointer by
    exactly what [computeWorkspace] announces, in bytes, and take their
    views one after the other without gap or overlap: [xt] then [yt] for the
    ellipse helper; the exponential array, then the x table, then the y
    table, each table of [(order + 1) * dataSize] elements, for the
    shapelet helper. *)
Theorem helper_layout_matches_computeWorkspace
    (sizeofT workspace dataSize order : Z) :
  (0 < sizeofT)%Z -> (0 <= dataSize)%Z -> (0 <= order)%Z ->
  (1 + 2 * (order + 1) < 2 ^ 31)%Z ->
  (sizeofT * dataSize * (1 + 2 * (order + 1)) < 2 ^ 31)%Z ->
  (let '(xt, yt, stop) := EllipseHelper_layout workspace dataSize in
   (sizeofT * (stop - workspace))%Z =
     EllipseHelper_computeWorkspace sizeofT dataSize /\
   view_begin xt = workspace /\
   view_begin yt = (view_begin xt + dataSize)%Z /\
   stop = (view_begin yt + dataSize)%Z) /\
  (let '(expW, xW, yW, stop) := ShapeletHelper_layout workspace dataSize order in
   (sizeofT * (stop - workspace))%Z =
     ShapeletHelper_computeWorkspace sizeofT dataSize order /\
   view_begin expW = workspace /\
   view_begin xW = (view_begin expW + dataSize)%Z /\
   view_begin yW = (view_begin xW + (order + 1) * dataSize)%Z /\
   stop = (view_begin yW + (order + 1) * dataSize)%Z).
Proof.
  intros Hs Hd Ho Hi Hb.
  assert (Hsd : (0 <= sizeofT * dataSize < 2 ^ 31)%Z) by nia.
  assert (Hrc : (0 <= (order + 1) * dataSize < 2 ^ 31)%Z) by nia.
  assert (H2 : (0 <= sizeofT * dataSize * 2 < 2 ^ 31)%Z) by nia.
  unfold EllipseHelper_layout, ShapeletHelper_layout,
    EllipseHelper_computeWorkspace, ShapeletHelper_computeWorkspace,
    makeView1, makeView2. cbn [view_begin].
  rewrite (toInt_small (order + 1)) by lia.
  rewrite (toInt_small ((order + 1) * dataSize)) by lia.
  rewrite (toInt_small (2 * (order + 1))) by lia.
  rewrite (toInt_small (1 + 2 * (order + 1))) by lia.
  rewrite (toSize_small dataSize) by lia.
  rewrite (toSize_small (sizeofT * dataSize)) by lia.
  rewrite (toSize_small (1 + 2 * (order + 1))) by lia.
  rewrite (toSize_small (sizeofT * dataSize * 2)) by lia.
  rewrite (toSize_small (sizeofT * dataSize * (1 + 2 * (order + 1)))) by nia.
  rewrite (toInt_small (sizeofT * dataSize * 2)) by lia.
  rewrite (toInt_small (sizeofT * dataSize * (1 + 2 * (order + 1)))) by nia.
  repeat split; ring.
Qed.

(** Doubles, 100 samples, order 4. *)
Lemma helper_layout_matches_computeWorkspace_witness :
  (8 * (snd (ShapeletHelper_layout 0 100 4) - 0))%Z =
  ShapeletHelper_computeWorkspace 8 100 4.
Proof.
  refine (proj1 (proj2 (helper_layout_matches_computeWorkspace 8 0 100 4
                          _ _ _ _ _))); lia.
Defined.
